(** * Dino Game: the game loop of [game_solution.py], embedded and verified

    The Python class [DinoGame] keeps all of its state in attributes of one
    object and talks to three pieces of environment: the Tk canvas (item
    coordinates and bounding boxes), the [random] module and the save file
    [game_save.json].  The embedding below keeps the attributes in a record
    [DinoGame], threads the environment through the same record, and writes
    every method as a function on it, in the order of the source.

    Numbers.  Python [int]s that stay integers (score, bounding boxes, random
    draws) are [Z].  Values that become [float]s are rationals [Q]: the speed
    ramp and the obstacle abscissae only ever hold multiples of 1/4 far below
    2^53, on which binary floating point addition is exact; for the jump
    physics (gravity 1.15) the rational value idealises the rounded one, and
    no statement below depends on the difference. *)

From Stdlib Require Import ZArith QArith Qround Qminmax Lqa Bool List String Lia.
From Stdlib Require Import Permutation Sorted.
Import ListNotations.

Local Open Scope string_scope.
Local Open Scope Z_scope.
Local Open Scope Q_scope.

(** ** Exceptions as [option] *)

(** A method that raises (an [AttributeError] on an attribute that was never
    assigned) returns [None]. *)
Definition bind {A B : Type} (m : option A) (k : A -> option B) : option B :=
  match m with
  | Some a => k a
  | None => None
  end.

Notation "x <- m ;; k" := (bind m (fun x => k))
  (at level 61, m at next level, right associativity).
Notation "' p <- m ;; k" := (bind m (fun p => k))
  (at level 61, p pattern, m at next level, right associativity).

(** [a < b] on Python numbers. *)
Definition Qltb (a b : Q) : bool := negb (Qle_bool b a).

(** ** The [random] module *)

(** The generator is a tape of raw draws and a cursor; [randint a b] reads one
    draw and folds it into the closed range [a..b], as [random.randint] does
    (both ends included). *)
Record RNG := { tape : nat -> Z; cursor : nat }.

Definition randint (a b : Z) (g : RNG) : Z * RNG :=
  ((a + (tape g (cursor g)) mod (b - a + 1))%Z,
   {| tape := tape g; cursor := S (cursor g) |}).

(** ** The canvas *)

(** A [PhotoImage] is named by the file it was read from.  [create_obstacles]
    passes the whole list [self.obstacle_images] where an image is expected
    and stores that list next to the item; [load_saved_state] passes and
    stores one element. *)
Definition image := string.

Inductive image_arg :=
| OneImage (i : image)
| ImageList (l : list image).

(** An image item of the canvas: its coordinates and its image. *)
Record item := { item_x : Q; item_y : Q; item_image : image_arg }.

(** [canvas.move(it, dx, dy)] and [canvas.coords(it, x, y)]. *)
Definition canvas_move (it : item) (dx dy : Q) : item :=
  {| item_x := item_x it + dx; item_y := item_y it + dy;
     item_image := item_image it |}.

Definition canvas_coords (it : item) (x y : Q) : item :=
  {| item_x := x; item_y := y; item_image := item_image it |}.

(** A bounding box [(x1, y1, x2, y2)], the tuple [canvas.bbox] returns:
    top left and bottom right corner. *)
Record box := { bx1 : Z; by1 : Z; bx2 : Z; by2 : Z }.

(** Tk's bounding box of an image item anchored at its centre: the
    coordinates are rounded to the nearest pixel (halves away from zero) and
    the image is centred there.  [size] gives the pixel size of an image
    file; the files themselves are not part of the sources. *)
Definition tk_round (c : Q) : Z :=
  if Qle_bool 0 c then Qfloor (c + 0.5) else Qceiling (c - 0.5).

Definition image_name (a : image_arg) : option image :=
  match a with
  | OneImage i => Some i
  | ImageList [i] => Some i
  | ImageList _ => None
  end.

Definition tk_bbox (size : image -> Z * Z) (it : item) : box :=
  let x := tk_round (item_x it) in
  let y := tk_round (item_y it) in
  match image_name (item_image it) with
  | Some i =>
      let '(width, height) := size i in
      let x := (x - width / 2)%Z in
      let y := (y - height / 2)%Z in
      {| bx1 := x; by1 := y; bx2 := (x + width)%Z; by2 := (y + height)%Z |}
  | None => {| bx1 := x; by1 := y; bx2 := x; by2 := y |}
  end.

(** ** Attributes of the game object *)

Record keybinds_t :=
  { kb_jump : string; kb_pause : string; kb_boss_key : string }.

Definition default_keybinds : keybinds_t :=
  {| kb_jump := "space"; kb_pause := "p"; kb_boss_key := "b" |}.

(** The attributes [setup_game] assigns together; before the first game they
    do not exist.  [canvas_alive] is false once the canvas widget has been
    destroyed by a menu screen.  The methods below are written for a canvas
    that exists; on a destroyed one their canvas calls raise [TclError],
    and the statements about runs of events keep to sessions whose canvas
    exists. *)
Record Session := {
  canvas_alive : bool;
  dino_y : Q;
  dino_jump : bool;
  obstacles : list (item * image_arg);
  score : Z;
  dino : item;
  obstacle_speed : Q
}.

(** Contents of [SAVE_FILE]: the JSON object with the keys it has.  A key
    that is absent is [None]; [.get(key, default)] reads through [default]. *)
Record obstacle_info :=
  { js_x : option Q; js_y : option Q; js_image_index : option Z }.

Record snapshot := {
  js_player_name : option string;
  js_score : option Z;
  js_dino_y : option Q;
  js_dino_jump : option bool;
  js_dino_speed : option Q;
  js_obstacle_speed : option Q;
  js_keybinds : option keybinds_t;
  js_leaderboard : option (list (string * Z));
  js_obstacles : option (list obstacle_info)
}.

Inductive file_content :=
| NoFile                      (* open raises FileNotFoundError *)
| NotJson                     (* json.load raises JSONDecodeError *)
| JsonFile (game_state : snapshot)
| NotText                     (* not UTF-8: json.load raises UnicodeDecodeError *)
| JsonScalar                  (* a JSON number, true, false or null *)
| JsonString (text : string)  (* a JSON string *)
| JsonList (elements : list (option string)).
                              (* a JSON array; None is an element that is
                                 not a string *)

(** The exceptions that leave [load_initial_state] uncaught. *)
Inductive exception :=
| TypeError
| AttributeError
| UnicodeDecodeError.

(** [needle in text] on Python strings, and [needle in elements] on a list. *)
Definition contains (needle text : string) : bool :=
  match String.index 0 needle text with
  | Some _ => true
  | None => false
  end.

Definition member (needle : string) (elements : list (option string)) : bool :=
  existsb (fun e => match e with
                    | Some s => String.eqb s needle
                    | None => false
                    end) elements.

Definition get {A : Type} (field : option A) (default : A) : A :=
  match field with
  | Some v => v
  | None => default
  end.

(** Callbacks handed to [root.after]. *)
Inductive callback :=
| cb_increase_speed
| cb_update_game
| cb_increment_score
| cb_deactivate_invincibility.

(** The object and its environment.  [player_name] and [dino_speed] are
    assigned by other methods than [setup_game], so they are optional on
    their own. *)
Record DinoGame := {
  leaderboard : list (string * Z);
  paused : bool;
  keybinds : keybinds_t;
  game_running : bool;
  saved_state : bool;
  invincible : bool;
  player_name : option string;
  dino_speed : option Q;
  session : option Session;
  save_file : file_content;          (* SAVE_FILE on disk *)
  timers : list (Z * callback);      (* the calls of root.after, oldest first *)
  rng : RNG                          (* state of the random module *)
}.

(** ** Attribute assignment *)

Definition set_canvas_alive (v : bool) (p : Session) : Session :=
  {| canvas_alive := v; dino_y := dino_y p; dino_jump := dino_jump p;
     obstacles := obstacles p; score := score p; dino := dino p;
     obstacle_speed := obstacle_speed p |}.

Definition set_dino_y (v : Q) (p : Session) : Session :=
  {| canvas_alive := canvas_alive p; dino_y := v; dino_jump := dino_jump p;
     obstacles := obstacles p; score := score p; dino := dino p;
     obstacle_speed := obstacle_speed p |}.

Definition set_dino_jump (v : bool) (p : Session) : Session :=
  {| canvas_alive := canvas_alive p; dino_y := dino_y p; dino_jump := v;
     obstacles := obstacles p; score := score p; dino := dino p;
     obstacle_speed := obstacle_speed p |}.

Definition set_obstacles (v : list (item * image_arg)) (p : Session) : Session :=
  {| canvas_alive := canvas_alive p; dino_y := dino_y p;
     dino_jump := dino_jump p; obstacles := v; score := score p;
     dino := dino p; obstacle_speed := obstacle_speed p |}.

Definition set_score (v : Z) (p : Session) : Session :=
  {| canvas_alive := canvas_alive p; dino_y := dino_y p;
     dino_jump := dino_jump p; obstacles := obstacles p; score := v;
     dino := dino p; obstacle_speed := obstacle_speed p |}.

Definition set_dino (v : item) (p : Session) : Session :=
  {| canvas_alive := canvas_alive p; dino_y := dino_y p;
     dino_jump := dino_jump p; obstacles := obstacles p; score := score p;
     dino := v; obstacle_speed := obstacle_speed p |}.

Definition set_obstacle_speed (v : Q) (p : Session) : Session :=
  {| canvas_alive := canvas_alive p; dino_y := dino_y p;
     dino_jump := dino_jump p; obstacles := obstacles p; score := score p;
     dino := dino p; obstacle_speed := v |}.

Definition set_leaderboard (v : list (string * Z)) (self : DinoGame) : DinoGame :=
  {| leaderboard := v; paused := paused self; keybinds := keybinds self;
     game_running := game_running self; saved_state := saved_state self;
     invincible := invincible self; player_name := player_name self;
     dino_speed := dino_speed self; session := session self;
     save_file := save_file self; timers := timers self; rng := rng self |}.

Definition set_paused (v : bool) (self : DinoGame) : DinoGame :=
  {| leaderboard := leaderboard self; paused := v; keybinds := keybinds self;
     game_running := game_running self; saved_state := saved_state self;
     invincible := invincible self; player_name := player_name self;
     dino_speed := dino_speed self; session := session self;
     save_file := save_file self; timers := timers self; rng := rng self |}.

Definition set_keybinds (v : keybinds_t) (self : DinoGame) : DinoGame :=
  {| leaderboard := leaderboard self; paused := paused self; keybinds := v;
     game_running := game_running self; saved_state := saved_state self;
     invincible := invincible self; player_name := player_name self;
     dino_speed := dino_speed self; session := session self;
     save_file := save_file self; timers := timers self; rng := rng self |}.

Definition set_game_running (v : bool) (self : DinoGame) : DinoGame :=
  {| leaderboard := leaderboard self; paused := paused self;
     keybinds := keybinds self; game_running := v;
     saved_state := saved_state self; invincible := invincible self;
     player_name := player_name self; dino_speed := dino_speed self;
     session := session self; save_file := save_file self;
     timers := timers self; rng := rng self |}.

Definition set_saved_state (v : bool) (self : DinoGame) : DinoGame :=
  {| leaderboard := leaderboard self; paused := paused self;
     keybinds := keybinds self; game_running := game_running self;
     saved_state := v; invincible := invincible self;
     player_name := player_name self; dino_speed := dino_speed self;
     session := session self; save_file := save_file self;
     timers := timers self; rng := rng self |}.

Definition set_invincible (v : bool) (self : DinoGame) : DinoGame :=
  {| leaderboard := leaderboard self; paused := paused self;
     keybinds := keybinds self; game_running := game_running self;
     saved_state := saved_state self; invincible := v;
     player_name := player_name self; dino_speed := dino_speed self;
     session := session self; save_file := save_file self;
     timers := timers self; rng := rng self |}.

Definition set_player_name (v : option string) (self : DinoGame) : DinoGame :=
  {| leaderboard := leaderboard self; paused := paused self;
     keybinds := keybinds self; game_running := game_running self;
     saved_state := saved_state self; invincible := invincible self;
     player_name := v; dino_speed := dino_speed self;
     session := session self; save_file := save_file self;
     timers := timers self; rng := rng self |}.

Definition set_dino_speed (v : option Q) (self : DinoGame) : DinoGame :=
  {| leaderboard := leaderboard self; paused := paused self;
     keybinds := keybinds self; game_running := game_running self;
     saved_state := saved_state self; invincible := invincible self;
     player_name := player_name self; dino_speed := v;
     session := session self; save_file := save_file self;
     timers := timers self; rng := rng self |}.

Definition set_session (v : option Session) (self : DinoGame) : DinoGame :=
  {| leaderboard := leaderboard self; paused := paused self;
     keybinds := keybinds self; game_running := game_running self;
     saved_state := saved_state self; invincible := invincible self;
     player_name := player_name self; dino_speed := dino_speed self;
     session := v; save_file := save_file self;
     timers := timers self; rng := rng self |}.

Definition set_save_file (v : file_content) (self : DinoGame) : DinoGame :=
  {| leaderboard := leaderboard self; paused := paused self;
     keybinds := keybinds self; game_running := game_running self;
     saved_state := saved_state self; invincible := invincible self;
     player_name := player_name self; dino_speed := dino_speed self;
     session := session self; save_file := v;
     timers := timers self; rng := rng self |}.

Definition set_timers (v : list (Z * callback)) (self : DinoGame) : DinoGame :=
  {| leaderboard := leaderboard self; paused := paused self;
     keybinds := keybinds self; game_running := game_running self;
     saved_state := saved_state self; invincible := invincible self;
     player_name := player_name self; dino_speed := dino_speed self;
     session := session self; save_file := save_file self;
     timers := v; rng := rng self |}.

Definition set_rng (v : RNG) (self : DinoGame) : DinoGame :=
  {| leaderboard := leaderboard self; paused := paused self;
     keybinds := keybinds self; game_running := game_running self;
     saved_state := saved_state self; invincible := invincible self;
     player_name := player_name self; dino_speed := dino_speed self;
     session := session self; save_file := save_file self;
     timers := timers self; rng := v |}.

(** [self.root.after(ms, cb)]. *)
Definition after (ms : Z) (cb : callback) (self : DinoGame) : DinoGame :=
  set_timers (timers self ++ [(ms, cb)])%list self.

(** Assignment to one of the attributes kept in [Session]. *)
Definition with_session (f : Session -> Session) (self : DinoGame) : DinoGame :=
  set_session (option_map f (session self)) self.

(** ** Constants assigned by [setup_game] *)

Definition jump_speed : Q := -15.
Definition gravity : Q := 1.15.
Definition max_speed : Q := 25.
Definition speed_increase_interval : Z := 5000.
Definition dino_image : image := "dino_big.png".
Definition obstacle_images : list image := ["rock_new.png"].

(** ** The leaderboard order *)

(** [sorted(l, key=lambda x: x[1], reverse=True)]: Python's sort is stable,
    also with [reverse=True], so entries of equal score keep their order.
    The stable arrangement is unique; it is computed here by insertion from
    the right, each entry going in front of the first entry whose score is
    not larger than its own. *)
Fixpoint insert_by_score (e : string * Z) (l : list (string * Z))
  : list (string * Z) :=
  match l with
  | [] => [e]
  | h :: t =>
      if (snd e <? snd h)%Z then h :: insert_by_score e t else e :: h :: t
  end.

Definition sorted_by_score (l : list (string * Z)) : list (string * Z) :=
  fold_right insert_by_score [] l.

(** [before a b]: entry [a] may stand in front of entry [b], its score is
    not smaller. *)
Definition before (a b : string * Z) : Prop := (snd b <= snd a)%Z.

(** ** Methods of the game loop *)

Section Methods.

(** [self.canvas.bbox]: any function from items to boxes; [tk_bbox] is the
    one Tk computes. *)
Variable bbox : item -> box.

(** The two margin adjustments of [check_collision]. *)
Definition adjusted_dino_coords (dino_coords : box) : box :=
  let dino_vertical_margin := 7%Z in
  let dino_horizontal_margin := 30%Z in
  {| bx1 := (bx1 dino_coords + dino_horizontal_margin)%Z;
     by1 := (by1 dino_coords + dino_vertical_margin)%Z;
     bx2 := (bx2 dino_coords - dino_horizontal_margin)%Z;
     by2 := (by2 dino_coords - dino_vertical_margin)%Z |}.

Definition adjusted_obstacle_coords (obstacle_coords : box) : box :=
  let obstacle_margin := 30%Z in
  {| bx1 := (bx1 obstacle_coords + obstacle_margin)%Z;
     by1 := (by1 obstacle_coords + obstacle_margin)%Z;
     bx2 := (bx2 obstacle_coords - obstacle_margin)%Z;
     by2 := (by2 obstacle_coords - obstacle_margin)%Z |}.

Definition check_collision (self : DinoGame) (obstacle : item) : option bool :=
  if invincible self then Some false
  else
    p <- session self ;;
    let dino_coords := bbox (dino p) in
    let obstacle_coords := bbox obstacle in
    let a := adjusted_dino_coords dino_coords in
    let b := adjusted_obstacle_coords obstacle_coords in
    Some ((bx2 a >? bx1 b)%Z && (bx1 a <? bx2 b)%Z
          && (by2 a >? by1 b)%Z && (by1 a <? by2 b)%Z).

Definition game_over (self : DinoGame) : option DinoGame :=
  let self := set_game_running false self in
  let self :=
    match save_file self with
    | NoFile => self
    | _ => set_saved_state false (set_save_file NoFile self)
    end in
  name <- player_name self ;;
  p <- session self ;;
  let appended := (leaderboard self ++ [(name, score p)])%list in
  Some (set_leaderboard (firstn 5 (sorted_by_score appended)) self).

(** Lines 290-292 of [update_game]: an obstacle that has left the screen
    on the left is put back at a random abscissa. *)
Definition recycle (obstacle : item) (self : DinoGame) : item * DinoGame :=
  if Qltb (item_x obstacle) 0 then
    let '(x_position, g) := randint 800 1100 (rng self) in
    (canvas_coords obstacle (inject_Z x_position) 340, set_rng g self)
  else (obstacle, self).

(** The [for] loop of [update_game] over [self.obstacles]: the moved items
    are returned, the effects of [random] and [game_over] are in the
    object. *)
Fixpoint move_obstacles (obs : list (item * image_arg)) (self : DinoGame)
  : option (list (item * image_arg) * DinoGame) :=
  match obs with
  | [] => Some ([], self)
  | (obstacle, img) :: rest =>
      p <- session self ;;
      let '(obstacle, self) :=
        recycle (canvas_move obstacle (- obstacle_speed p) 0) self in
      hit <- check_collision self obstacle ;;
      self <- (if hit then game_over self else Some self) ;;
      '(rest, self) <- move_obstacles rest self ;;
      Some ((obstacle, img) :: rest, self)
  end.

(** Lines 279-285 of [update_game]: the jump, then the dino's item is
    placed. *)
Definition move_dino (self : DinoGame) : option DinoGame :=
  p <- session self ;;
  self <-
    (if dino_jump p then
       v <- dino_speed self ;;
       let y := dino_y p + v in
       let self := set_dino_speed (Some (v + gravity)) self in
       if Qle_bool 248 y
       then Some (with_session
                    (fun p => set_dino_jump false (set_dino_y 248 p)) self)
       else Some (with_session (set_dino_y y) self)
     else Some self) ;;
  Some (with_session
          (fun p => set_dino (canvas_coords (dino p) 75 (dino_y p + 26)) p)
          self).

Definition update_game (self : DinoGame) : option DinoGame :=
  if negb (game_running self) || paused self then Some self
  else
    self <- move_dino self ;;
    p <- session self ;;
    '(obs, self) <- move_obstacles (obstacles p) self ;;
    Some (after 30 cb_update_game (with_session (set_obstacles obs) self)).

Definition jump (self : DinoGame) : option DinoGame :=
  p <- session self ;;
  if negb (dino_jump p) && negb (paused self)
  then Some (set_dino_speed (Some jump_speed)
               (with_session (set_dino_jump true) self))
  else Some self.

Definition increment_score (self : DinoGame) : option DinoGame :=
  if game_running self && negb (paused self) then
    _ <- session self ;;
    Some (after 100 cb_increment_score
            (with_session (fun p => set_score (score p + 1)%Z p) self))
  else Some self.

Definition increase_speed (self : DinoGame) : option DinoGame :=
  p <- session self ;;
  let self :=
    if Qltb (obstacle_speed p) max_speed && negb (paused self)
    then with_session
           (fun p => set_obstacle_speed (obstacle_speed p + 0.75) p) self
    else self in
  Some (after speed_increase_interval cb_increase_speed self).

Definition pause (self : DinoGame) : option DinoGame :=
  if negb (game_running self) then Some self
  else
    let self := set_paused (negb (paused self)) self in
    if paused self then Some self
    else
      self <- update_game self ;;
      increment_score self.

Definition boss_key (self : DinoGame) : DinoGame :=
  if negb (game_running self) then self
  else if negb (paused self) then set_paused true self
  else self.

Definition activate_invincibility (self : DinoGame) : DinoGame :=
  if negb (invincible self)
  then after 10000 cb_deactivate_invincibility (set_invincible true self)
  else self.

Definition deactivate_invincibility (self : DinoGame) : DinoGame :=
  set_invincible false self.

(** [event.char.lower() == "c"] holds for the characters [c] and [C]. *)
Definition handle_cheat_code (char : string) (self : DinoGame) : DinoGame :=
  if (String.eqb char "c" || String.eqb char "C") && game_running self
  then activate_invincibility self
  else self.

Definition create_obstacles (self : DinoGame) : option DinoGame :=
  p <- session self ;;
  match obstacles p with
  | [] =>
      let '(x_position, g) := randint 750 850 (rng self) in
      let obstacle_image := ImageList obstacle_images in
      let first :=
        {| item_x := inject_Z x_position; item_y := 340;
           item_image := obstacle_image |} in
      let '(d, g) := randint 400 800 g in
      let x_position := (x_position + d)%Z in
      let second :=
        {| item_x := inject_Z x_position; item_y := 340;
           item_image := obstacle_image |} in
      let '(_, g) := randint 400 800 g in
      Some (set_rng g
              (with_session
                 (set_obstacles
                    [(first, obstacle_image); (second, obstacle_image)])
                 self))
  | _ :: _ => Some self
  end.

End Methods.

(** ** Persistence *)

(** [l.index(i)], when [i in l]. *)
Fixpoint index_of (i : image) (l : list image) : option Z :=
  match l with
  | [] => None
  | h :: t =>
      if String.eqb h i then Some 0%Z else option_map Z.succ (index_of i t)
  end.

(** The [image_index] written for an obstacle: the position of the stored
    image in [self.obstacle_images], and 0 when it is not an element of that
    list (as the list itself, stored by [create_obstacles], is not). *)
Definition image_index (stored : image_arg) : Z :=
  match stored with
  | OneImage i => get (index_of i obstacle_images) 0%Z
  | ImageList _ => 0%Z
  end.

(** [l[i]] on a Python list: negative indices count from the end, an index
    out of range raises [IndexError]. *)
Definition list_item {A : Type} (l : list A) (i : Z) : option A :=
  let n := Z.of_nat (List.length l) in
  if ((0 <=? i) && (i <? n))%Z then nth_error l (Z.to_nat i)
  else if ((- n <=? i) && (i <? 0))%Z then nth_error l (Z.to_nat (i + n))
  else None.

(** The record written for one obstacle. *)
Definition obstacle_record (obstacle : item * image_arg) : obstacle_info :=
  {| js_x := Some (item_x (fst obstacle));
     js_y := Some (item_y (fst obstacle));
     js_image_index := Some (image_index (snd obstacle)) |}.

(** The dictionary [game_state] built by [save_game_state].  With no canvas
    attribute, and with a canvas that has been destroyed ([coords] raises
    [TclError]), the obstacle list is empty. *)
Definition game_state (self : DinoGame) : snapshot :=
  {| js_player_name := Some (get (player_name self) "Player");
     js_score := Some (get (option_map score (session self)) 0%Z);
     js_dino_y := Some (get (option_map dino_y (session self)) 300);
     js_dino_jump := Some (get (option_map dino_jump (session self)) false);
     js_dino_speed := Some (get (dino_speed self) 0);
     js_obstacle_speed :=
       Some (get (option_map obstacle_speed (session self)) 5);
     js_keybinds := Some (keybinds self);
     js_leaderboard := Some (leaderboard self);
     js_obstacles :=
       Some match session self with
            | Some p =>
                if canvas_alive p then map obstacle_record (obstacles p)
                else []
            | None => []
            end |}.

(** Writing the file is taken to succeed (an [IOError] is only printed). *)
Definition save_game_state (self : DinoGame) : DinoGame :=
  set_save_file (JsonFile (game_state self)) self.

(** [load_initial_state] catches [FileNotFoundError] and [JSONDecodeError]
    only.  [load_initial_state] is the object as the method leaves it, by
    return or by an exception; [load_initial_state_error] is the exception
    that leaves it uncaught, if any.  On a number, [true], [false] or [null]
    the test ["score" in game_state] raises [TypeError]; on a string or a
    list that passes both tests, [game_state.get] raises [AttributeError];
    in both cases nothing has been assigned. *)
Definition load_initial_state (self : DinoGame) : DinoGame :=
  match save_file self with
  | JsonFile game_state =>
      match js_score game_state, js_keybinds game_state with
      | Some _, Some _ =>
          let self :=
            set_leaderboard (get (js_leaderboard game_state) []) self in
          let self :=
            set_keybinds (get (js_keybinds game_state) (keybinds self)) self in
          set_saved_state true self
      | _, _ => set_saved_state false self
      end
  | NoFile | NotJson =>
      let self := set_leaderboard [] self in
      let self := set_keybinds default_keybinds self in
      set_saved_state false self
  | NotText | JsonScalar => self
  | JsonString text =>
      if contains "score" text && contains "keybinds" text then self
      else set_saved_state false self
  | JsonList elements =>
      if member "score" elements && member "keybinds" elements then self
      else set_saved_state false self
  end.

Definition load_initial_state_error (self : DinoGame) : option exception :=
  match save_file self with
  | NoFile | NotJson | JsonFile _ => None
  | NotText => Some UnicodeDecodeError
  | JsonScalar => Some TypeError
  | JsonString text =>
      if contains "score" text && contains "keybinds" text
      then Some AttributeError else None
  | JsonList elements =>
      if member "score" elements && member "keybinds" elements
      then Some AttributeError else None
  end.

(** The loop of [load_saved_state] over the saved obstacles.  The boolean is
    false when [self.obstacle_images[image_index]] raised: the obstacles
    appended before that stay in the list. *)
Fixpoint recreate_obstacles (obstacle_data : list obstacle_info)
  : list (item * image_arg) * bool :=
  match obstacle_data with
  | [] => ([], true)
  | obstacle_info :: rest =>
      let x := get (js_x obstacle_info) 800 in
      let y := get (js_y obstacle_info) 340 in
      let image_index := get (js_image_index obstacle_info) 0%Z in
      match list_item obstacle_images image_index with
      | Some obstacle_image =>
          let obstacle :=
            {| item_x := x; item_y := y;
               item_image := OneImage obstacle_image |} in
          let '(rest, ok) := recreate_obstacles rest in
          ((obstacle, OneImage obstacle_image) :: rest, ok)
      | None => ([], false)
      end
  end.

(** [load_saved_state] catches every exception and prints it; what was
    assigned before the exception stays assigned.  On a file that does not
    hold a JSON object the exception comes before the first assignment.  It
    is called by [setup_game] only, after the session attributes exist. *)
Definition load_saved_state (self : DinoGame) : DinoGame :=
  match save_file self with
  | JsonFile game_state =>
      let self :=
        set_player_name (Some (get (js_player_name game_state) "Player")) self in
      let self := with_session (set_score (get (js_score game_state) 0%Z)) self in
      let self := with_session (set_dino_y (get (js_dino_y game_state) 248)) self in
      let self :=
        with_session (set_dino_jump (get (js_dino_jump game_state) false)) self in
      let self := set_dino_speed (Some (get (js_dino_speed game_state) 0)) self in
      let self :=
        with_session
          (set_obstacle_speed (get (js_obstacle_speed game_state) 5)) self in
      let self :=
        set_keybinds (get (js_keybinds game_state) (keybinds self)) self in
      let '(obs, ok) := recreate_obstacles (get (js_obstacles game_state) []) in
      let self := with_session (set_obstacles obs) self in
      if ok then
        match (match obs with [] => create_obstacles self | _ => Some self end)
        with
        | Some self => set_paused true self
        | None => self
        end
      else self
  | NoFile | NotJson | NotText | JsonScalar | JsonString _ | JsonList _ =>
      self
  end.

(** ** Screens and session start *)

(** [main_menu] clears the window; the canvas of a finished game is among
    the destroyed widgets.  Key bindings are state of the toolkit. *)
Definition main_menu (self : DinoGame) : DinoGame :=
  with_session (set_canvas_alive false) self.

Definition restart_game (self : DinoGame) : DinoGame := main_menu self.

Definition save_and_quit (self : DinoGame) : DinoGame :=
  main_menu (save_game_state self).

(** [s or default] on strings. *)
Definition or_default (s default : string) : string :=
  if String.eqb s "" then default else s.

(** [save_keybinds]; the arguments are the texts of the three entries after
    [.strip().lower()]. *)
Definition save_keybinds (jump_entry pause_entry boss_entry : string)
  (self : DinoGame) : DinoGame :=
  let new_keybinds :=
    {| kb_jump := or_default jump_entry "space";
       kb_pause := or_default pause_entry "p";
       kb_boss_key := or_default boss_entry "b" |} in
  let self := set_keybinds new_keybinds self in
  let self := save_game_state self in
  main_menu self.

(** [DinoGame.__init__], given what is on disk and the state of [random]. *)
Definition DinoGame_init (disk : file_content) (g : RNG) : DinoGame :=
  let self :=
    {| leaderboard := []; paused := false; keybinds := default_keybinds;
       game_running := false; saved_state := false; invincible := false;
       player_name := None; dino_speed := None; session := None;
       save_file := disk; timers := []; rng := g |} in
  main_menu (load_initial_state self).

(** The exception that ends [__init__], and with it the application, if
    [load_initial_state] lets one through: [__init__] is then left before
    [main_menu], there is no window and no object, and [DinoGame_init]
    describes nothing. *)
Definition DinoGame_init_error (disk : file_content) (g : RNG)
  : option exception :=
  load_initial_state_error
    {| leaderboard := []; paused := false; keybinds := default_keybinds;
       game_running := false; saved_state := false; invincible := false;
       player_name := None; dino_speed := None; session := None;
       save_file := disk; timers := []; rng := g |}.

(** The state of the "Load Game" button that [main_menu] builds:
    [tk.NORMAL if os.path.exists(SAVE_FILE) else tk.DISABLED]. *)
Definition load_button_enabled (self : DinoGame) : bool :=
  match save_file self with
  | NoFile => false
  | _ => true
  end.

Section SessionStart.

Variable bbox : item -> box.

Definition setup_game (load_state : bool) (self : DinoGame)
  : option DinoGame :=
  let p :=
    {| canvas_alive := true;
       dino_y := 248;
       dino_jump := false;
       obstacles := [];
       score := 0;
       dino := {| item_x := 75; item_y := 248 + 25;
                  item_image := OneImage dino_image |};
       obstacle_speed := 5 |} in
  let self := set_session (Some p) self in
  let self := set_game_running true self in
  let self := set_paused false self in
  let self := after speed_increase_interval cb_increase_speed self in
  self <- (if load_state then Some (load_saved_state self)
           else create_obstacles self) ;;
  self <- increase_speed self ;;
  self <- update_game bbox self ;;
  increment_score self.

Definition start_game (self : DinoGame) : option DinoGame :=
  setup_game false self.

(** [save_name_and_start]; [name_entry] is the text of the name entry. *)
Definition save_name_and_start (name_entry : string) (self : DinoGame)
  : option DinoGame :=
  start_game (set_player_name (Some (or_default name_entry "Player")) self).

Definition load_game (self : DinoGame) : option DinoGame :=
  setup_game true self.

End SessionStart.

(** ** The event loop *)

(** A timer that comes due: the callback is called. *)
Definition call (bbox : item -> box) (cb : callback) (self : DinoGame)
  : option DinoGame :=
  match cb with
  | cb_increase_speed => increase_speed self
  | cb_update_game => update_game bbox self
  | cb_increment_score => increment_score self
  | cb_deactivate_invincibility => Some (deactivate_invincibility self)
  end.

(** What the Tk main loop delivers to a running session: timers that come
    due and the key bindings. *)
Inductive event :=
| Timer (cb : callback)
| JumpKey                 (* jump *)
| PauseKey                (* pause *)
| BossKey                 (* boss_key *)
| Key (char : string).    (* handle_cheat_code *)

Definition dispatch (bbox : item -> box) (e : event) (self : DinoGame)
  : option DinoGame :=
  match e with
  | Timer cb => call bbox cb self
  | JumpKey => jump self
  | PauseKey => pause bbox self
  | BossKey => Some (boss_key self)
  | Key char => Some (handle_cheat_code char self)
  end.

(** Any sequence of events, in any order. *)
Fixpoint run (bbox : item -> box) (events : list event) (self : DinoGame)
  : option DinoGame :=
  match events with
  | [] => Some self
  | e :: events => self <- dispatch bbox e self ;; run bbox events self
  end.

(** The main loop left to its timers.  [agenda] holds the pending timers
    with the time in milliseconds at which each is due, in the order of
    their registration; the timer that is due first is served first, and
    among timers due together the one registered first.  A callback takes no
    time. *)
Record mainloop_state :=
  { now : Z; agenda : list (Z * callback); app : DinoGame }.

Fixpoint earliest (l : list (Z * callback)) : option (Z * callback) :=
  match l with
  | [] => None
  | t :: l =>
      match earliest l with
      | Some t' => if (fst t' <? fst t)%Z then Some t' else Some t
      | None => Some t
      end
  end.

Fixpoint remove_first (due : Z) (l : list (Z * callback))
  : list (Z * callback) :=
  match l with
  | [] => []
  | t :: l => if (fst t =? due)%Z then l else t :: remove_first due l
  end.

(** The timers registered between two states of the object, with their due
    times when the registration happens at time [t]. *)
Definition registered (before after : DinoGame) (t : Z)
  : list (Z * callback) :=
  map (fun e => ((t + fst e)%Z, snd e))
      (skipn (List.length (timers before)) (timers after)).

(** Serves the timers due up to [deadline]; [None] when a callback raises or
    [fuel] callbacks did not suffice. *)
Fixpoint mainloop (bbox : item -> box) (fuel : nat) (deadline : Z)
  (st : mainloop_state) : option mainloop_state :=
  match fuel with
  | O => None
  | S fuel =>
      match earliest (agenda st) with
      | Some (due, cb) =>
          if (due <=? deadline)%Z then
            self <- call bbox cb (app st) ;;
            mainloop bbox fuel deadline
              {| now := due;
                 agenda := (remove_first due (agenda st)
                            ++ registered (app st) self due)%list;
                 app := self |}
          else Some st
      | None => Some st
      end
  end.

(** [ramp n]: the speed callback fired [n] times in a row. *)
Fixpoint ramp (n : nat) (self : DinoGame) : option DinoGame :=
  match n with
  | O => Some self
  | S n => self <- increase_speed self ;; ramp n self
  end.

(** ** Predicates of the specification *)

(** A session in which no attribute read by the loop is missing: the session
    attributes exist, the player has a name, and a dino in the air has a
    speed. *)
Definition ready (self : DinoGame) : bool :=
  match session self, player_name self with
  | Some p, Some _ =>
      implb (dino_jump p)
        match dino_speed self with Some _ => true | None => false end
  | _, _ => false
  end.

(** The player invariant as the specification words it; an attribute
    [dino_speed] that was never assigned counts as velocity 0, the value
    [save_game_state] writes for it. *)
Definition player_invariant (self : DinoGame) (p : Session) : Prop :=
  dino_jump p = false -> dino_y p == 248 /\ get (dino_speed self) 0 == 0.

(** Its position half. *)
Definition grounded (p : Session) : Prop :=
  dino_jump p = false -> dino_y p == 248.



(** Where an obstacle is. *)
Definition position (o : item * image_arg) : Q * Q :=
  (item_x (fst o), item_y (fst o)).

(** [restores self p name restored]: the object [restored] carries the
    fields of the session [p] of [self], played under [name]; the obstacles
    are where the snapshot of [self] has them, and two new ones when it has
    none.  A [dino_speed] that was never assigned comes back as 0. *)
Definition restores (self : DinoGame) (p : Session) (name : string)
  (restored : DinoGame) : Prop :=
  exists p',
    session restored = Some p' /\
    player_name restored = Some name /\
    score p' = score p /\
    dino_y p' = dino_y p /\
    dino_jump p' = dino_jump p /\
    dino_speed restored = Some (get (dino_speed self) 0) /\
    obstacle_speed p' = obstacle_speed p /\
    keybinds restored = keybinds self /\
    leaderboard restored = leaderboard self /\
    match get (js_obstacles (game_state self)) [] with
    | [] => List.length (obstacles p') = 2%nat
    | _ :: _ => map position (obstacles p') = map position (obstacles p)
    end.

(** Resume eligibility as the specification words it: the snapshot has a
    [score] field and a [keybinds] field. *)
Definition resume_eligible (disk : file_content) : bool :=
  match disk with
  | JsonFile game_state =>
      match js_score game_state, js_keybinds game_state with
      | Some _, Some _ => true
      | _, _ => false
      end
  | NoFile | NotJson | NotText | JsonScalar | JsonString _ | JsonList _ =>
      false
  end.

(** The speed after [n] ramp intervals as the specification states it. *)
Definition spec_speed (n : nat) : Q :=
  Qmin 25 (5 + 0.75 * inject_Z (Z.of_nat n)).

(** ** Concrete sessions *)

(** Pixel sizes for the two image files, for the examples. *)
Definition asset_size (i : image) : Z * Z :=
  if String.eqb i "dino_big.png" then (150, 150)%Z else (100, 100)%Z.

Definition example_bbox : item -> box := tk_bbox asset_size.

(** A tape whose draws give the obstacles 800 and 1300 at spawn and 1100 at
    every recycling. *)
Definition example_tape (n : nat) : Z :=
  match n with
  | O => 50%Z
  | 1%nat => 100%Z
  | _ => 300%Z
  end.

Definition example_rng : RNG := {| tape := example_tape; cursor := 0 |}.

(** The application started with no save file, then a game started under
    the name Ann. *)
Definition example_menu : DinoGame := DinoGame_init NoFile example_rng.

Definition example_game : option DinoGame :=
  save_name_and_start example_bbox "Ann" example_menu.

Definition example_dino : item :=
  {| item_x := 75; item_y := 274; item_image := OneImage dino_image |}.

Definition rock (x : Q) : item * image_arg :=
  ({| item_x := x; item_y := 340; item_image := ImageList obstacle_images |},
   ImageList obstacle_images).

Definition example_rock : item := fst (rock 80).

(** A running session with the dino on the ground, score 7, speed 5, and the
    obstacles at the given abscissae. *)
Definition example_play (xs : list Q) : Session :=
  {| canvas_alive := true; dino_y := 248; dino_jump := false;
     obstacles := map rock xs; score := 7; dino := example_dino;
     obstacle_speed := 5 |}.

Definition example_session (invincibility : bool) (xs : list Q) : DinoGame :=
  {| leaderboard := []; paused := false; keybinds := default_keybinds;
     game_running := true; saved_state := false; invincible := invincibility;
     player_name := Some "Ann"; dino_speed := None;
     session := Some (example_play xs);
     save_file := NoFile; timers := []; rng := example_rng |}.

(** The session after one step with an obstacle under the dino. *)
Definition example_after_hit : DinoGame :=
  get (update_game example_bbox (example_session false [80]))
      (example_session false [80]).

(** A session whose first obstacle is about to leave the screen, the next
    draw of the tape being 300; and the session one step later. *)
Definition example_recycling_play : Session := example_play [3; 500].

Definition example_recycling : DinoGame :=
  set_rng {| tape := example_tape; cursor := 2 |}
    (example_session false [3; 500]).


(** A save file with key bindings and no score. *)
Definition example_no_score : snapshot :=
  {| js_player_name := Some "Ann"; js_score := None; js_dino_y := None;
     js_dino_jump := None; js_dino_speed := None; js_obstacle_speed := None;
     js_keybinds := Some default_keybinds;
     js_leaderboard := Some [("Ann", 7%Z)]; js_obstacles := None |}.

(** A snapshot with its [dino_y] key removed. *)
Definition without_dino_y (snap : snapshot) : snapshot :=
  {| js_player_name := js_player_name snap; js_score := js_score snap;
     js_dino_y := None; js_dino_jump := js_dino_jump snap;
     js_dino_speed := js_dino_speed snap;
     js_obstacle_speed := js_obstacle_speed snap;
     js_keybinds := js_keybinds snap; js_leaderboard := js_leaderboard snap;
     js_obstacles := js_obstacles snap |}.

(** A whole run: the game is started under the name Ann at time 0, the
    cheat key is pressed at once, and nothing is pressed after that.  The
    draws of [run_tape] spawn the obstacles at 750 and 1260 and put them back
    at 800 and 1090. *)
Definition run_tape (n : nat) : Z :=
  match n with
  | 1%nat => 110%Z
  | 4%nat => 290%Z
  | _ => 0%Z
  end.

Definition run_menu : DinoGame :=
  DinoGame_init NoFile {| tape := run_tape; cursor := 0 |}.

Definition run_start : option mainloop_state :=
  self <- save_name_and_start example_bbox "Ann" run_menu ;;
  let self := handle_cheat_code "c" self in
  Some {| now := 0; agenda := registered run_menu self 0; app := self |}.

(** The collision test as the specification words it: both boxes shrunk
    inward by their margins, then strict overlap on both axes. *)
Definition shrink (dx dy : Z) (b : box) : box :=
  {| bx1 := (bx1 b + dx)%Z; by1 := (by1 b + dy)%Z;
     bx2 := (bx2 b - dx)%Z; by2 := (by2 b - dy)%Z |}.

Definition rectangles_overlap (a b : box) : Prop :=
  (bx2 a > bx1 b /\ bx1 a < bx2 b /\ by2 a > by1 b /\ by1 a < by2 b)%Z.

Definition spec_collision (actor obstacle : box) : Prop :=
  rectangles_overlap (shrink 30 7 actor) (shrink 30 30 obstacle).

(** ** What the events keep *)

(** What lines 279-284 of [update_game] do to the dino between a state
    [self] with session [p] and the next: in the air the speed is added to
    the height and gravity to the speed, and the dino lands, at 248, when
    that takes it to 248 or below the ground; on the ground nothing moves.
    The speed is never set back on landing. *)
Definition dino_moved (self : DinoGame) (p : Session) (self' : DinoGame)
  (p' : Session) : Prop :=
  if dino_jump p then
    exists v,
      dino_speed self = Some v /\ dino_speed self' = Some (v + gravity) /\
      if Qle_bool 248 (dino_y p + v)
      then dino_y p' = 248 /\ dino_jump p' = false
      else dino_y p' = dino_y p + v /\ dino_jump p' = true
  else
    dino_speed self' = dino_speed self /\ dino_y p' = dino_y p /\
    dino_jump p' = false.

(** A session that the events can run in: the session attributes exist, a
    dino in the air has a speed, and the player has a name unless there is
    no obstacle to collide with ([game_over] alone reads the name).  Every
    ready session is steady; a game loaded from a file that holds no JSON
    object is steady and, before any game was started from the menu, not
    ready. *)
Definition steady (self : DinoGame) : bool :=
  match session self with
  | Some p =>
      implb (dino_jump p)
        match dino_speed self with Some _ => true | None => false end
      && (match player_name self with Some _ => true | None => false end
          || match obstacles p with [] => true | _ :: _ => false end)
  | None => false
  end.

(** [keeps self p self']: the object [self'] still has a session, with as
    many obstacles as the session [p] of [self]; it is grounded if [p] was
    and steady if [self] was, and its canvas exists if that of [p] did. *)
Definition keeps (self : DinoGame) (p : Session) (self' : DinoGame) : Prop :=
  exists p',
    session self' = Some p' /\
    List.length (obstacles p') = List.length (obstacles p) /\
    (grounded p -> grounded p') /\
    (steady self = true -> steady self' = true) /\
    canvas_alive p' = canvas_alive p.

(** A snapshot in which a dino that is not jumping stands at 248, absent
    keys read as [load_saved_state] reads them. *)
Definition snapshot_grounded (snap : snapshot) : Prop :=
  get (js_dino_jump snap) false = false -> get (js_dino_y snap) 248 == 248.

(** A save file whose snapshot, if it holds one, is grounded.  From a file
    that holds no JSON object [load_saved_state] restores nothing. *)
Definition file_grounded (disk : file_content) : Prop :=
  match disk with
  | JsonFile snap => snapshot_grounded snap
  | NoFile | NotJson | NotText | JsonScalar | JsonString _ | JsonList _ => True
  end.

(** An obstacle record that [load_saved_state] can turn into an obstacle:
    its [image_index], 0 when absent, is an index of the one-element list
    [obstacle_images]. *)
Definition loadable (r : obstacle_info) : Prop :=
  get (js_image_index r) 0%Z = 0%Z \/ get (js_image_index r) 0%Z = (-1)%Z.

(** A snapshot that lists no obstacle, or two loadable ones. *)
Definition pool_of_two (snap : snapshot) : Prop :=
  Forall loadable (get (js_obstacles snap) []) /\
  (get (js_obstacles snap) [] = [] \/
   List.length (get (js_obstacles snap) []) = 2%nat).


(** ** More concrete sessions *)

(** The game of [example_game] with the dino in the air, one step before it
    lands, and one step later. *)
Definition example_airborne : DinoGame :=
  get (bind example_game
         (run example_bbox (JumpKey :: repeat (Timer cb_update_game) 27)))
      example_menu.

Definition example_airborne_play : Session :=
  get (session example_airborne) (example_play []).

Definition example_landed : DinoGame :=
  get (update_game example_bbox example_airborne) example_menu.





(** ** Further predicates and examples *)

(** No [PauseKey] among the events. *)
Definition no_pause_key (events : list event) : bool :=
  forallb (fun e => match e with PauseKey => false | _ => true end) events.

(** The session of [example_after_hit]. *)
Definition example_hit_play : Session :=
  match session example_after_hit with
  | Some p => p
  | None => example_play [80]
  end.

(** A running session with one rock far from the dino. *)
Definition example_far_play : Session := example_play [500].

Definition example_far : DinoGame := example_session false [500].

(** The same session paused and resumed. *)
Definition example_resumed : DinoGame :=
  get (pause example_bbox (set_paused true example_far))
      example_far.

(** * Verification *)

(** ** Comparisons *)

Lemma Qltb_lt (a b : Q) : Qltb a b = true <-> a < b.
Proof.
  unfold Qltb. rewrite negb_true_iff, <- not_true_iff_false, Qle_bool_iff.
  split; [apply Qnot_le_lt | apply Qlt_not_le].
Qed.

Lemma Qltb_ge (a b : Q) : Qltb a b = false <-> b <= a.
Proof.
  unfold Qltb. rewrite negb_false_iff. apply Qle_bool_iff.
Qed.

(** ** Inversion of [bind] *)

Lemma bind_Some {A B : Type} (m : option A) (k : A -> option B) (b : B) :
  bind m k = Some b -> exists a, m = Some a /\ k a = Some b.
Proof.
  destruct m as [a|]; simpl; intros H; [exists a; auto | discriminate].
Qed.

Lemma Some_eq {A : Type} (a b : A) : Some a = Some b -> a = b.
Proof. congruence. Qed.

(** Takes a hypothesis [bind m k = Some b] apart. *)
Tactic Notation "inv_bind" hyp(H) "as" simple_intropattern(a) ident(Ha) :=
  apply bind_Some in H; destruct H as (a & Ha & H).

(** ** What each method leaves alone *)

Section Frames.

Variable bbox : item -> box.

Lemma check_collision_total (self : DinoGame) (obstacle : item) :
  invincible self = true \/ session self <> None ->
  exists hit, check_collision bbox self obstacle = Some hit.
Proof.
  unfold check_collision. intros [H | H].
  - rewrite H. eauto.
  - destruct (invincible self); [eauto|].
    destruct (session self); [simpl; eauto | contradiction].
Qed.

Lemma game_over_frame (self self' : DinoGame) :
  game_over self = Some self' ->
  session self' = session self /\ dino_speed self' = dino_speed self /\
  paused self' = paused self /\ invincible self' = invincible self /\
  timers self' = timers self /\ player_name self' = player_name self /\
  keybinds self' = keybinds self /\ rng self' = rng self /\
  game_running self' = false.
Proof.
  unfold game_over. intros H.
  inv_bind H as name En. inv_bind H as p Ep. injection H as <-.
  destruct self as [lb pa kb gr ss inv pn ds se [| |gs| | |txt|els] ti g];
    simpl; repeat split.
Qed.

Lemma game_over_total (self : DinoGame) :
  session self <> None -> player_name self <> None ->
  exists self', game_over self = Some self'.
Proof.
  unfold game_over. intros Hs Hn.
  destruct self as [lb pa kb gr ss inv [n|] ds [p|] sf ti g]; simpl in *;
    try contradiction.
  destruct sf; simpl; eauto.
Qed.

Lemma recycle_frame (obstacle obstacle' : item) (self self' : DinoGame) :
  recycle obstacle self = (obstacle', self') ->
  session self' = session self /\ dino_speed self' = dino_speed self /\
  paused self' = paused self /\ invincible self' = invincible self /\
  timers self' = timers self /\ player_name self' = player_name self /\
  keybinds self' = keybinds self /\ game_running self' = game_running self /\
  leaderboard self' = leaderboard self /\ save_file self' = save_file self /\
  saved_state self' = saved_state self.
Proof.
  unfold recycle. destruct (Qltb (item_x obstacle) 0); simpl;
    intros H; injection H as <- <-; destruct self; simpl; repeat split.
Qed.

(** The loop over the obstacles touches neither the session attributes nor
    the flags other than [game_running]; it keeps the number of
    obstacles. *)
Lemma move_obstacles_frame (obs : list (item * image_arg)) :
  forall (self : DinoGame) obs' self',
    move_obstacles bbox obs self = Some (obs', self') ->
    session self' = session self /\ dino_speed self' = dino_speed self /\
    paused self' = paused self /\ invincible self' = invincible self /\
    timers self' = timers self /\ player_name self' = player_name self /\
    keybinds self' = keybinds self /\
    List.length obs' = List.length obs.
Proof.
  induction obs as [|[obstacle img] rest IH]; simpl; intros self obs' self' H.
  - injection H as <- <-. repeat split.
  - inv_bind H as p Ep.
    destruct (recycle _ self) as [o1 self1] eqn:Er.
    apply recycle_frame in Er.
    destruct Er as (R1 & R2 & R3 & R4 & R5 & R6 & R7 & _).
    inv_bind H as hit Eh. inv_bind H as self2 Eg.
    inv_bind H as [rest' self3] Em.
    injection H as <- <-.
    apply IH in Em.
    destruct Em as (I1 & I2 & I3 & I4 & I5 & I6 & I7 & I8).
    assert (G : session self2 = session self1 /\
                dino_speed self2 = dino_speed self1 /\
                paused self2 = paused self1 /\
                invincible self2 = invincible self1 /\
                timers self2 = timers self1 /\
                player_name self2 = player_name self1 /\
                keybinds self2 = keybinds self1).
    { destruct hit.
      - apply game_over_frame in Eg. tauto.
      - injection Eg as <-. repeat split. }
    destruct G as (G1 & G2 & G3 & G4 & G5 & G6 & G7).
    simpl. repeat split; congruence.
Qed.


Lemma move_obstacles_total (obs : list (item * image_arg)) :
  forall self : DinoGame,
    session self <> None -> player_name self <> None ->
    exists r, move_obstacles bbox obs self = Some r.
Proof.
  induction obs as [|[obstacle img] rest IH]; simpl; intros self Hs Hn.
  - eauto.
  - destruct (session self) as [p|] eqn:Ep; [simpl | contradiction].
    destruct (recycle _ self) as [o1 self1] eqn:Er.
    apply recycle_frame in Er.
    destruct Er as (R1 & _ & _ & _ & _ & R6 & _).
    assert (Hs1 : session self1 <> None) by (rewrite R1, Ep; discriminate).
    assert (Hn1 : player_name self1 <> None) by (rewrite R6; exact Hn).
    destruct (check_collision_total self1 o1 (or_intror Hs1)) as [hit ->].
    simpl.
    assert (G : exists self2,
               (if hit then game_over self1 else Some self1) = Some self2 /\
               session self2 <> None /\ player_name self2 <> None).
    { destruct hit.
      - destruct (game_over_total self1 Hs1 Hn1) as [self2 E2].
        exists self2. split; [exact E2|].
        apply game_over_frame in E2.
        destruct E2 as (G1 & _ & _ & _ & _ & G6 & _).
        rewrite G1, G6. auto.
      - eauto. }
    destruct G as (self2 & -> & Hs2 & Hn2). simpl.
    destruct (IH self2 Hs2 Hn2) as [[rest' self3] ->]. simpl. eauto.
Qed.

(** While [invincible] is set the loop never ends the game. *)
Lemma move_obstacles_invincible (obs : list (item * image_arg)) :
  forall (self : DinoGame) obs' self',
    invincible self = true ->
    move_obstacles bbox obs self = Some (obs', self') ->
    game_running self' = game_running self /\
    leaderboard self' = leaderboard self /\
    save_file self' = save_file self /\
    saved_state self' = saved_state self.
Proof.
  induction obs as [|[obstacle img] rest IH]; simpl;
    intros self obs' self' Hi H.
  - injection H as <- <-. repeat split.
  - inv_bind H as p Ep.
    destruct (recycle _ self) as [o1 self1] eqn:Er.
    apply recycle_frame in Er.
    destruct Er as (_ & _ & _ & R4 & _ & _ & _ & R8 & R9 & R10 & R11).
    unfold check_collision in H. rewrite R4, Hi in H. simpl in H.
    inv_bind H as [rest' self3] Em. injection H as <- <-.
    apply IH in Em; [|congruence].
    destruct Em as (I1 & I2 & I3 & I4). repeat split; congruence.
Qed.

Lemma move_dino_frame (self self' : DinoGame) :
  move_dino self = Some self' ->
  game_running self' = game_running self /\ paused self' = paused self /\
  invincible self' = invincible self /\ timers self' = timers self /\
  leaderboard self' = leaderboard self /\
  player_name self' = player_name self /\ rng self' = rng self /\
  save_file self' = save_file self /\ saved_state self' = saved_state self /\
  keybinds self' = keybinds self /\
  exists p p', session self = Some p /\ session self' = Some p' /\
               obstacles p' = obstacles p /\ score p' = score p /\
               obstacle_speed p' = obstacle_speed p /\
               canvas_alive p' = canvas_alive p.
Proof.
  unfold move_dino. intros H.
  inv_bind H as p Ep. inv_bind H as self1 E1. injection H as <-.
  destruct (dino_jump p).
  - inv_bind E1 as v Ev.
    destruct (Qle_bool 248 (dino_y p + v)); injection E1 as <-;
      destruct self; simpl in *; subst; simpl;
      repeat split; eexists _, _; repeat split.
  - injection E1 as <-.
    destruct self; simpl in *; subst; simpl;
      repeat split; eexists _, _; repeat split.
Qed.

Lemma move_dino_total (self : DinoGame) :
  ready self = true -> exists self', move_dino self = Some self'.
Proof.
  unfold ready, move_dino. intros H.
  destruct (session self) as [p|]; [simpl | discriminate].
  destruct (player_name self); [|discriminate].
  destruct (dino_jump p); simpl in *; [|eauto].
  destruct (dino_speed self) as [v|]; [simpl | discriminate].
  destruct (Qle_bool 248 (dino_y p + v)); simpl; eauto.
Qed.

(** The shape of a step that is not skipped. *)
Lemma update_game_running (self self' : DinoGame) :
  game_running self = true -> paused self = false ->
  update_game bbox self = Some self' ->
  exists self1 p1 obs self2,
    move_dino self = Some self1 /\ session self1 = Some p1 /\
    move_obstacles bbox (obstacles p1) self1 = Some (obs, self2) /\
    self' = after 30 cb_update_game (with_session (set_obstacles obs) self2).
Proof.
  unfold update_game. intros -> -> H. simpl in H.
  inv_bind H as self1 E1. inv_bind H as p1 Ep. inv_bind H as [obs self2] Em.
  injection H as <-. eauto 10.
Qed.

Lemma update_game_skipped (self : DinoGame) :
  game_running self = false \/ paused self = true ->
  update_game bbox self = Some self.
Proof.
  unfold update_game. intros [-> | ->]; simpl; [reflexivity|].
  rewrite orb_true_r. reflexivity.
Qed.

Lemma update_game_total (self : DinoGame) :
  ready self = true -> exists self', update_game bbox self = Some self'.
Proof.
  intros Hr. unfold update_game.
  destruct (negb (game_running self) || paused self); [eauto|].
  destruct (move_dino_total self Hr) as [self1 E1]. rewrite E1. simpl.
  destruct (move_dino_frame _ _ E1)
    as (_ & _ & _ & _ & _ & F6 & _ & _ & _ & _ & p & p1 & Ep & Ep1 & _).
  rewrite Ep1. simpl.
  destruct (move_obstacles_total (obstacles p1) self1) as [[obs self2] ->].
  - rewrite Ep1. discriminate.
  - rewrite F6. unfold ready in Hr. rewrite Ep in Hr.
    destruct (player_name self); [discriminate | discriminate].
  - simpl. eauto.
Qed.

End Frames.

(** ** The collision detector *)

(** C1, as amended: when the session is not invincible, [check_collision]
    depends on the two bounding boxes only: it shrinks the dino's box by 30
    horizontally and 7 vertically, the obstacle's box by 30 on every side,
    and answers true exactly when the shrunk rectangles strictly overlap on
    both axes.  This holds whatever boxes the canvas reports. *)
Theorem check_collision_margins_overlap :
  forall (bbox : item -> box) (self : DinoGame) (p : Session) (obstacle : item),
    session self = Some p ->
    invincible self = false ->
    exists hit,
      check_collision bbox self obstacle = Some hit /\
      (hit = true <-> spec_collision (bbox (dino p)) (bbox obstacle)).
Proof.
  intros bbox self p obstacle Hs Hi.
  unfold check_collision. rewrite Hi, Hs. simpl.
  eexists. split; [reflexivity|].
  unfold spec_collision, rectangles_overlap, shrink,
    adjusted_dino_coords, adjusted_obstacle_coords; simpl.
  rewrite !andb_true_iff, !Z.gtb_ltb, !Z.ltb_lt. lia.
Qed.

(** The rule at a session that is not invincible, with a rock under the dino. *)
Lemma check_collision_margins_overlap_witness :
  exists hit,
    check_collision example_bbox (example_session false [80]) example_rock
    = Some hit /\
    (hit = true <->
     spec_collision (example_bbox (dino (example_play [80])))
       (example_bbox example_rock)).
Proof.
  apply (check_collision_margins_overlap example_bbox
           (example_session false [80]) (example_play [80]) example_rock);
    reflexivity.
Defined.

(** C1, as stated, fails: with [invincible] set the answer is false although
    the two shrunk boxes overlap, so the answer is not a function of the
    boxes alone. *)
Lemma check_collision_not_a_function_of_the_boxes :
  check_collision example_bbox (example_session true [80]) example_rock
  = Some false /\
  check_collision example_bbox (example_session false [80]) example_rock
  = Some true /\
  spec_collision (example_bbox example_dino) (example_bbox example_rock).
Proof.
  split; [reflexivity|]. split; [reflexivity|].
  unfold spec_collision, rectangles_overlap. vm_compute.
  repeat split; reflexivity.
Qed.

(** ** Invincibility *)

(** C2: while [invincible] is set, [check_collision] answers false for every
    obstacle, and a step neither stops the game nor touches the leaderboard
    or the save file; a step of a ready session does return. *)
Theorem invincible_step_never_ends_game :
  forall (bbox : item -> box) (self : DinoGame),
    invincible self = true ->
    (forall obstacle, check_collision bbox self obstacle = Some false) /\
    (forall self',
        update_game bbox self = Some self' ->
        game_running self' = game_running self /\
        leaderboard self' = leaderboard self /\
        save_file self' = save_file self /\
        invincible self' = true) /\
    (ready self = true -> exists self', update_game bbox self = Some self').
Proof.
  intros bbox self Hi. split; [|split].
  - intros obstacle. unfold check_collision. rewrite Hi. reflexivity.
  - intros self' H.
    destruct (game_running self) eqn:Hr; cycle 1.
    { rewrite update_game_skipped in H by auto.
      injection H as <-. auto. }
    destruct (paused self) eqn:Hp.
    { rewrite update_game_skipped in H by auto.
      injection H as <-. auto. }
    apply update_game_running in H; auto.
    destruct H as (self1 & p1 & obs & self2 & E1 & Ep & Em & ->).
    apply move_dino_frame in E1.
    destruct E1 as (F1 & _ & F3 & _ & F5 & _ & _ & F8 & _).
    pose proof (move_obstacles_frame bbox _ _ _ _ Em) as (_ & _ & _ & G4 & _).
    apply move_obstacles_invincible in Em; [|congruence].
    destruct Em as (I1 & I2 & I3 & _).
    destruct self2; simpl in *. repeat split; congruence.
  - apply update_game_total.
Qed.

(** At an invincible session with both rocks under the dino. *)
Lemma invincible_step_never_ends_game_witness :
  (forall obstacle,
      check_collision example_bbox (example_session true [80; 90]) obstacle
      = Some false) /\
  (forall self',
      update_game example_bbox (example_session true [80; 90]) = Some self' ->
      game_running self' = game_running (example_session true [80; 90]) /\
      leaderboard self' = leaderboard (example_session true [80; 90]) /\
      save_file self' = save_file (example_session true [80; 90]) /\
      invincible self' = true) /\
  (ready (example_session true [80; 90]) = true ->
   exists self',
     update_game example_bbox (example_session true [80; 90]) = Some self').
Proof.
  apply (invincible_step_never_ends_game example_bbox
           (example_session true [80; 90])).
  reflexivity.
Defined.

(** ** Skipped steps and rescheduling *)

(** C9, as amended: a step taken while the game is not running or is paused
    returns the object unchanged; every other step registers exactly one
    [after(30, update_game)], whether or not the game is still running at
    its end. *)
Theorem update_game_noop_and_reschedule :
  forall (bbox : item -> box) (self self' : DinoGame),
    update_game bbox self = Some self' ->
    (negb (game_running self) || paused self = true -> self' = self) /\
    timers self' =
      (timers self ++
       if game_running self && negb (paused self)
       then [(30%Z, cb_update_game)] else [])%list.
Proof.
  intros bbox self self' H.
  destruct (game_running self) eqn:Hr; cycle 1.
  { rewrite update_game_skipped in H by auto. injection H as <-.
    simpl. rewrite app_nil_r. auto. }
  destruct (paused self) eqn:Hp.
  { rewrite update_game_skipped in H by auto. injection H as <-.
    simpl. rewrite app_nil_r. auto. }
  simpl. split; [discriminate|].
  apply update_game_running in H; auto.
  destruct H as (self1 & p1 & obs & self2 & E1 & Ep & Em & ->).
  apply move_dino_frame in E1. destruct E1 as (_ & _ & _ & F4 & _).
  apply move_obstacles_frame in Em.
  destruct Em as (_ & _ & _ & _ & G5 & _).
  unfold after, with_session. simpl. congruence.
Qed.

(** At the step of [example_session false [80]], which ends the game. *)
Lemma update_game_noop_and_reschedule_witness :
  (negb (game_running (example_session false [80]))
   || paused (example_session false [80]) = true ->
   example_after_hit = example_session false [80]) /\
  timers example_after_hit =
    (timers (example_session false [80]) ++
     if game_running (example_session false [80])
        && negb (paused (example_session false [80]))
     then [(30%Z, cb_update_game)] else [])%list.
Proof.
  apply (update_game_noop_and_reschedule example_bbox
           (example_session false [80]) example_after_hit).
  vm_compute. reflexivity.
Defined.

(** C9, as stated, fails: the step below ends the game on a collision and
    still registers the next tick. *)
Lemma update_game_reschedules_after_game_over :
  exists self',
    update_game example_bbox (example_session false [80]) = Some self' /\
    game_running self' = false /\
    timers self' = [(30%Z, cb_update_game)].
Proof.
  eexists. split; [vm_compute; reflexivity|]. split; reflexivity.
Qed.

(** ** The speed ramp *)

Section SpeedRamp.

Lemma increase_speed_session (self self' : DinoGame) :
  increase_speed self = Some self' ->
  exists p p',
    session self = Some p /\ session self' = Some p' /\
    paused self' = paused self /\
    obstacle_speed p' =
      (if Qltb (obstacle_speed p) max_speed && negb (paused self)
       then obstacle_speed p + 0.75 else obstacle_speed p) /\
    dino_y p' = dino_y p /\ dino_jump p' = dino_jump p /\
    obstacles p' = obstacles p /\ score p' = score p.
Proof.
  unfold increase_speed. intros H. inv_bind H as p Ep. injection H as <-.
  exists p.
  destruct (Qltb (obstacle_speed p) max_speed && negb (paused self));
    unfold after, with_session; rewrite ?Ep; simpl;
    eexists; repeat split; eauto.
Qed.

(** The ramp never lowers the speed. *)
Lemma increase_speed_monotone (self self' : DinoGame) (p p' : Session) :
  increase_speed self = Some self' ->
  session self = Some p -> session self' = Some p' ->
  obstacle_speed p <= obstacle_speed p'.
Proof.
  intros H Ep Ep'. apply increase_speed_session in H.
  destruct H as (q & q' & Eq & Eq' & _ & Hv & _).
  assert (q = p) by congruence. assert (q' = p') by congruence. subst.
  rewrite Hv.
  destruct (Qltb (obstacle_speed p) max_speed && negb (paused self)); lra.
Qed.

Lemma increase_speed_total (self : DinoGame) :
  session self <> None -> exists self', increase_speed self = Some self'.
Proof.
  unfold increase_speed. destruct (session self); [simpl; eauto | tauto].
Qed.

Lemma inject_nat_le (k n : nat) :
  (k <= n)%nat -> inject_Z (Z.of_nat k) <= Z.of_nat n # 1.
Proof.
  intros H. change (Z.of_nat n # 1) with (inject_Z (Z.of_nat n)).
  rewrite <- Zle_Qle. lia.
Qed.

(** From speed 5, [n] unpaused calls give [5 + 0.75 n] up to the 27th call
    and 25.25 from then on: the test [obstacle_speed < max_speed] still
    passes at 24.5. *)
Lemma ramp_speed (n : nat) :
  forall (self : DinoGame) (p : Session) (k : nat),
    session self = Some p -> paused self = false ->
    (k <= 27)%nat ->
    obstacle_speed p == 5 + 0.75 * inject_Z (Z.of_nat k) ->
    exists self' p',
      ramp n self = Some self' /\ session self' = Some p' /\
      obstacle_speed p' ==
        5 + 0.75 * inject_Z (Z.of_nat (Nat.min (k + n) 27)).
Proof.
  induction n as [|n IH]; intros self p k Ep Hp Hk Hv; simpl.
  - exists self, p. rewrite Nat.add_0_r, Nat.min_l by exact Hk. auto.
  - destruct (increase_speed_total self) as [self1 E1];
      [rewrite Ep; discriminate|].
    rewrite E1. simpl.
    destruct (increase_speed_session _ _ E1)
      as (q & p1 & Eq & Ep1 & Hp1 & Hv1 & _).
    assert (q = p) by congruence. subst q.
    rewrite Hp in Hv1. simpl in Hv1. rewrite andb_true_r in Hv1.
    destruct (Nat.eq_dec k 27) as [-> | Hne].
    + (* already past the cap *)
      assert (Hstay : Qltb (obstacle_speed p) max_speed = false).
      { apply Qltb_ge. rewrite Hv. unfold max_speed, Qle. simpl. lia. }
      rewrite Hstay in Hv1.
      destruct (IH self1 p1 27%nat) as (self' & p' & Er & Ep' & Hv');
        try congruence; auto.
      exists self', p'. repeat split; auto.
      rewrite Hv'. rewrite !Nat.min_r by lia. reflexivity.
    + assert (Hgo : Qltb (obstacle_speed p) max_speed = true).
      { apply Qltb_lt. rewrite Hv. unfold max_speed.
        pose proof (inject_nat_le k 26 ltac:(lia)) as Hle.
        simpl in Hle. lra. }
      rewrite Hgo in Hv1.
      destruct (IH self1 p1 (S k)) as (self' & p' & Er & Ep' & Hv');
        try congruence; try lia.
      { rewrite Hv1, Hv. rewrite Nat2Z.inj_succ. unfold Z.succ.
        rewrite inject_Z_plus. change (inject_Z 1) with 1. lra. }
      exists self', p'. repeat split; auto.
      rewrite Hv'. replace (S k + n)%nat with (k + S n)%nat by lia.
      reflexivity.
Qed.

End SpeedRamp.

(** C3 fails on the code.  From speed 5, the 27th unpaused call of
    [increase_speed] raises the speed from 24.5 to 25.25, above [max_speed]
    and above the value [min(25, 5 + 0.75*27)] of the specification.  A
    freshly started game has already been ramped once by [setup_game], which
    also leaves two [increase_speed] timers pending; so in the run
    [run_start] the speed of the running, unpaused game is 7.25 after one
    interval of 5 seconds, where the specification has 5.75, and it is 25.25
    after thirteen intervals. *)
Theorem speed_ramp_passes_max_speed :
  (exists self p,
      ramp 27 (example_session false [800; 1300]) = Some self /\
      session self = Some p /\
      obstacle_speed p == 25.25 /\
      max_speed < obstacle_speed p /\
      ~ obstacle_speed p == spec_speed 27) /\
  (exists self p,
      example_game = Some self /\ session self = Some p /\
      obstacle_speed p == 5.75 /\
      List.length
        (filter (fun t => match snd t with
                          | cb_increase_speed => true
                          | _ => false
                          end) (timers self)) = 2%nat) /\
  (exists st p,
      bind run_start (mainloop example_bbox 1000 5000) = Some st /\
      session (app st) = Some p /\
      game_running (app st) = true /\ paused (app st) = false /\
      obstacle_speed p == 7.25 /\
      spec_speed 1 == 5.75) /\
  (exists st p,
      bind run_start (mainloop example_bbox 1000 65000) = Some st /\
      session (app st) = Some p /\
      paused (app st) = false /\
      obstacle_speed p == 25.25).
Proof.
  split; [|split; [|split]].
  - eexists _, _. split; [vm_compute; reflexivity|].
    split; [reflexivity|]. vm_compute. repeat split; discriminate.
  - eexists _, _. split; [vm_compute; reflexivity|].
    split; [reflexivity|]. vm_compute. repeat split; discriminate.
  - eexists _, _. split; [vm_compute; reflexivity|].
    split; [reflexivity|]. vm_compute. repeat split; discriminate.
  - eexists _, _. split; [vm_compute; reflexivity|].
    split; [reflexivity|]. vm_compute. repeat split; discriminate.
Qed.

(** ** The leaderboard *)

Section Leaderboard.

Implicit Types (e : string * Z) (l : list (string * Z)).

Lemma insert_by_score_perm e l : Permutation (e :: l) (insert_by_score e l).
Proof.
  induction l as [|h t IH]; simpl; [reflexivity|].
  destruct (snd e <? snd h)%Z; [|reflexivity].
  rewrite perm_swap. constructor. exact IH.
Qed.

Lemma sorted_by_score_perm l : Permutation l (sorted_by_score l).
Proof.
  induction l as [|e l IH]; simpl; [constructor|].
  rewrite <- insert_by_score_perm. constructor. exact IH.
Qed.

Lemma insert_by_score_sorted e l :
  StronglySorted before l -> StronglySorted before (insert_by_score e l).
Proof.
  induction 1 as [|h t Ht IH Hh]; simpl.
  - repeat constructor.
  - destruct (snd e <? snd h)%Z eqn:E.
    + constructor; [exact IH|].
      rewrite <- insert_by_score_perm. constructor; [|exact Hh].
      apply Z.ltb_lt in E. unfold before. lia.
    + apply Z.ltb_ge in E.
      constructor; [constructor; assumption|].
      constructor; [exact E|].
      eapply Forall_impl; [|exact Hh]. unfold before. intros; lia.
Qed.

(** The result is in descending order of score. *)
Lemma sorted_by_score_sorted l : StronglySorted before (sorted_by_score l).
Proof.
  induction l as [|e l IH]; simpl;
    [constructor | apply insert_by_score_sorted, IH].
Qed.

Lemma insert_by_score_filter (k : Z) e l :
  filter (fun x => (snd x =? k)%Z) (insert_by_score e l) =
  filter (fun x => (snd x =? k)%Z) (e :: l).
Proof.
  induction l as [|h t IH]; [reflexivity|].
  simpl insert_by_score. destruct (snd e <? snd h)%Z eqn:E; [|reflexivity].
  apply Z.ltb_lt in E. simpl in *. rewrite IH.
  destruct (snd e =? k)%Z eqn:Ee, (snd h =? k)%Z eqn:Eh; try reflexivity.
  apply Z.eqb_eq in Ee, Eh. lia.
Qed.

(** The sort is stable: the entries of any one score come out in the
    order they went in. *)
Lemma sorted_by_score_stable (k : Z) l :
  filter (fun x => (snd x =? k)%Z) (sorted_by_score l) =
  filter (fun x => (snd x =? k)%Z) l.
Proof.
  induction l as [|e l IH]; [reflexivity|].
  simpl sorted_by_score. rewrite insert_by_score_filter. simpl.
  rewrite IH. reflexivity.
Qed.

Lemma firstn_Forall {A : Type} (P : A -> Prop) (n : nat) (l : list A) :
  Forall P l -> Forall P (firstn n l).
Proof.
  intros H. revert n. induction H; intros [|n]; simpl; constructor; auto.
Qed.

Lemma firstn_sorted (n : nat) l :
  StronglySorted before l -> StronglySorted before (firstn n l).
Proof.
  intros H. revert n.
  induction H as [|h t Ht IH Hh]; intros [|n]; simpl; constructor; auto.
  apply firstn_Forall, Hh.
Qed.

(** One call of [game_over] appends one entry, sorts, and keeps five. *)
Lemma game_over_leaderboard (self self' : DinoGame) :
  game_over self = Some self' ->
  exists name p,
    player_name self = Some name /\ session self = Some p /\
    leaderboard self' =
      firstn 5 (sorted_by_score (leaderboard self ++ [(name, score p)])) /\
    (List.length (leaderboard self') <= 5)%nat /\
    StronglySorted before (leaderboard self').
Proof.
  unfold game_over. intros H.
  inv_bind H as name En. inv_bind H as p Ep.
  apply Some_eq in H. subst self'. exists name, p.
  destruct self as [lb pa kb gr ss inv pn ds se [| |gs| | |txt|els] ti g];
    cbn -[firstn sorted_by_score] in *; subst;
    (repeat split; [apply firstn_le_length
                   | apply firstn_sorted, sorted_by_score_sorted]).
Qed.

End Leaderboard.

(** The six sessions of the specification's example, scores 10, 50, 30, 50,
    5, 20 under the names a to f. *)
Example leaderboard_of_six_sessions :
  fold_left
    (fun board entry => firstn 5 (sorted_by_score (board ++ [entry])))
    [("a", 10%Z); ("b", 50%Z); ("c", 30%Z); ("d", 50%Z); ("e", 5%Z);
     ("f", 20%Z)] []
  = [("b", 50%Z); ("d", 50%Z); ("c", 30%Z); ("f", 20%Z); ("a", 10%Z)].
Proof. reflexivity. Qed.

(** C4 fails on the code.  [update_game] calls [game_over] for every
    obstacle that collides and goes on with the loop, so a step in which both
    obstacles overlap the dino enters the finished session twice.  The run
    [run_start] gets there by itself: the two obstacles have been put back
    on top of each other and reach the dino, invincibility over, in the step
    at 10170 ms. *)
Theorem game_over_twice_in_one_step :
  (exists self',
      update_game example_bbox (example_session false [80; 90]) = Some self' /\
      game_running self' = false /\
      leaderboard self' = [("Ann", 7%Z); ("Ann", 7%Z)]) /\
  (exists st st',
      bind run_start (mainloop example_bbox 1000 10140) = Some st /\
      game_running (app st) = true /\
      leaderboard (app st) = [] /\
      bind run_start (mainloop example_bbox 1000 10170) = Some st' /\
      game_running (app st') = false /\
      leaderboard (app st') = [("Ann", 102%Z); ("Ann", 102%Z)]).
Proof.
  split.
  - eexists. split; [vm_compute; reflexivity|]. split; reflexivity.
  - eexists _, _. split; [vm_compute; reflexivity|].
    split; [reflexivity|]. split; [reflexivity|].
    split; [vm_compute; reflexivity|]. split; reflexivity.
Qed.

(** ** Recycling of obstacles *)

Section Recycling.

Variable bbox : item -> box.


(** Every value of the closed range is drawn by some tape. *)
Lemma randint_onto (a b r : Z) (g : RNG) :
  (a <= r <= b)%Z ->
  fst (randint a b {| tape := fun _ => (r - a)%Z; cursor := cursor g |}) = r.
Proof.
  intros H. unfold randint. cbn [fst tape cursor].
  rewrite Z.mod_small by lia. lia.
Qed.



End Recycling.

(** ** Saving and restoring *)

Section RoundTrip.

Variable bbox : item -> box.

Lemma image_index_zero (stored : image_arg) : image_index stored = 0%Z.
Proof.
  destruct stored as [i|l]; [|reflexivity].
  unfold image_index, obstacle_images, index_of.
  destruct (String.eqb "rock_new.png" i); reflexivity.
Qed.

(** The records written by [save_game_state] are read back without an
    exception, each obstacle at its saved position. *)
Lemma recreate_obstacles_saved (obs : list (item * image_arg)) :
  exists obs',
    recreate_obstacles (map obstacle_record obs) = (obs', true) /\
    map position obs' = map position obs.
Proof.
  induction obs as [|o obs (obs' & IH & Hp)]; simpl.
  - exists []. auto.
  - rewrite image_index_zero. simpl. rewrite IH.
    eexists. split; [reflexivity|]. simpl. rewrite Hp. reflexivity.
Qed.

Lemma create_obstacles_empty (self : DinoGame) (p : Session) :
  session self = Some p -> obstacles p = [] ->
  exists self' o1 o2,
    create_obstacles self = Some self' /\
    session self' = Some (set_obstacles [o1; o2] p) /\
    player_name self' = player_name self /\
    dino_speed self' = dino_speed self /\
    keybinds self' = keybinds self /\
    leaderboard self' = leaderboard self.
Proof.
  intros Hs Ho. unfold create_obstacles. rewrite Hs. cbn [bind]. rewrite Ho.
  unfold randint. cbv beta iota zeta.
  eexists _, _, _. split; [reflexivity|].
  unfold with_session. cbn [session set_rng set_session].
  rewrite Hs. repeat split.
Qed.

(** [load_saved_state] on the file written from [self]. *)
Lemma load_saved_state_restores (self loader : DinoGame) (p p0 : Session)
      (name : string) :
  session self = Some p -> player_name self = Some name ->
  session loader = Some p0 ->
  save_file loader = JsonFile (game_state self) ->
  leaderboard loader = leaderboard self ->
  restores self p name (load_saved_state loader) /\
  paused (load_saved_state loader) = true.
Proof.
  intros Hs Hn H0 Hf Hl.
  unfold load_saved_state. rewrite Hf.
  unfold restores, game_state. rewrite Hs, Hn.
  cbn [js_player_name js_score js_dino_y js_dino_jump js_dino_speed
       js_obstacle_speed js_keybinds js_leaderboard js_obstacles get
       option_map].
  match goal with
  | |- context [with_session (set_obstacles _) ?s] => set (base := s)
  end.
  assert (Hb : session base =
               Some (set_obstacle_speed (obstacle_speed p)
                       (set_dino_jump (dino_jump p)
                          (set_dino_y (dino_y p)
                             (set_score (score p) p0)))) /\
               player_name base = Some name /\
               dino_speed base = Some (get (dino_speed self) 0) /\
               keybinds base = keybinds self /\
               leaderboard base = leaderboard self).
  { subst base. unfold with_session.
    cbn [session set_session set_keybinds set_dino_speed set_player_name
         player_name dino_speed keybinds leaderboard].
    rewrite H0. cbn [option_map]. auto. }
  clearbody base. destruct Hb as (B1 & B2 & B3 & B4 & B5).
  assert (R : exists obs',
             recreate_obstacles
               (if canvas_alive p then map obstacle_record (obstacles p)
                else []) = (obs', true) /\
             map position obs' =
             map position (if canvas_alive p then obstacles p else [])).
  { destruct (canvas_alive p);
      [apply recreate_obstacles_saved | exists []; auto]. }
  destruct R as (obs' & -> & Hpos).
  destruct obs' as [|o obs'].
  - (* nothing saved: two new obstacles *)
    destruct (create_obstacles_empty
                (with_session (set_obstacles []) base) _
                ltac:(unfold with_session; cbn [session set_session];
                      rewrite B1; reflexivity) eq_refl)
      as (self' & o1 & o2 & -> & K1 & K2 & K3 & K4 & K5).
    split; [|reflexivity].
    eexists. split; [exact K1|].
    cbn [set_paused player_name dino_speed keybinds leaderboard].
    rewrite K2, K3, K4, K5.
    unfold with_session.
    cbn [set_session player_name dino_speed keybinds leaderboard].
    repeat split; try assumption.
    destruct (canvas_alive p); [|reflexivity].
    destruct (obstacles p); [reflexivity | discriminate].
  - split; [|reflexivity].
    unfold with_session.
    cbn [set_paused set_session session player_name dino_speed keybinds
         leaderboard].
    rewrite B1. cbn [option_map].
    eexists. split; [reflexivity|].
    repeat split; try assumption.
    destruct (canvas_alive p); [|discriminate].
    destruct (obstacles p); [discriminate|]. exact Hpos.
Qed.

(** With the game paused, the three calls that end [setup_game] only
    register one more speed timer. *)
Lemma setup_game_tail_paused (self : DinoGame) :
  session self <> None -> paused self = true ->
  (self1 <- increase_speed self ;;
   self2 <- update_game bbox self1 ;; increment_score self2)
  = Some (after speed_increase_interval cb_increase_speed self).
Proof.
  intros Hs Hp. unfold increase_speed.
  destruct (session self); [|contradiction]. cbn [bind].
  rewrite Hp, andb_false_r.
  rewrite update_game_skipped by (right; exact Hp). cbn [bind].
  unfold increment_score. cbn [after set_timers paused]. rewrite Hp.
  rewrite andb_false_r. reflexivity.
Qed.

Lemma load_game_restores (self loader : DinoGame) (p : Session)
      (name : string) :
  session self = Some p -> player_name self = Some name ->
  save_file loader = JsonFile (game_state self) ->
  leaderboard loader = leaderboard self ->
  exists restored,
    load_game bbox loader = Some restored /\ restores self p name restored.
Proof.
  intros Hs Hn Hf Hl.
  unfold load_game, setup_game. cbv beta iota zeta. cbn [bind].
  match goal with
  | |- context [load_saved_state ?s] =>
      destruct (load_saved_state_restores self s p _ name Hs Hn eq_refl Hf Hl)
        as ((p' & R) & Hp)
  end.
  rewrite setup_game_tail_paused;
    [|rewrite (proj1 R); discriminate | exact Hp].
  eexists. split; [reflexivity|].
  exists p'. exact R.
Qed.

End RoundTrip.

(** C7: a session written by [save_game_state] and loaded again comes back
    with its player name, score, dino position, jump flag, dino speed,
    obstacle speed, key bindings and leaderboard, both when the application
    is started anew on the file ([__init__] reads the leaderboard and the key
    bindings, [load_game] the rest) and when the game is loaded after "Save
    and Quit" in the same run.  The obstacles come back where the snapshot
    has them; when the snapshot has none, which is the case when no live
    canvas was there to read them from, exactly two new ones are created. *)
Theorem save_then_load_restores :
  forall (bbox : item -> box) (self : DinoGame) (p : Session) (name : string)
         (g : RNG),
    session self = Some p ->
    player_name self = Some name ->
    (exists restored,
        load_game bbox (DinoGame_init (save_file (save_game_state self)) g)
        = Some restored /\
        restores self p name restored) /\
    (exists restored,
        load_game bbox (save_and_quit self) = Some restored /\
        restores self p name restored).
Proof.
  intros bbox self p name g Hs Hn. split.
  - apply load_game_restores; auto.
  - apply load_game_restores; auto.
Qed.

(** At the session [example_recycling], played by Ann. *)
Lemma save_then_load_restores_witness :
  (exists restored,
      load_game example_bbox
        (DinoGame_init (save_file (save_game_state example_recycling))
           example_rng)
      = Some restored /\
      restores example_recycling example_recycling_play "Ann" restored) /\
  (exists restored,
      load_game example_bbox (save_and_quit example_recycling) = Some restored /\
      restores example_recycling example_recycling_play "Ann" restored).
Proof.
  apply (save_then_load_restores example_bbox example_recycling
           example_recycling_play "Ann" example_rng); reflexivity.
Defined.

(** ** The save file at start-up *)

(** What [load_initial_state] gets right: when it raises nothing, the flag
    [saved_state] is set exactly when the file holds a JSON object with a
    [score] and a [keybinds] key, and otherwise the object is the one
    [__init__] builds when there is no file. *)
Lemma load_initial_state_flag (disk : file_content) (g : RNG) :
  DinoGame_init_error disk g = None ->
  saved_state (DinoGame_init disk g) = resume_eligible disk /\
  (resume_eligible disk = false ->
   set_save_file NoFile (DinoGame_init disk g) = DinoGame_init NoFile g).
Proof.
  unfold DinoGame_init_error, load_initial_state_error, DinoGame_init,
    load_initial_state, resume_eligible.
  cbn [save_file].
  destruct disk as [| |gs| | |txt|els]; intros He; try discriminate.
  - split; [reflexivity | intros _; reflexivity].
  - split; [reflexivity | intros _; reflexivity].
  - destruct (js_score gs), (js_keybinds gs);
      (split; [reflexivity|]); intros H; try discriminate; reflexivity.
  - destruct (contains "score" txt && contains "keybinds" txt);
      [discriminate|]. split; [reflexivity | intros _; reflexivity].
  - destruct (member "score" els && member "keybinds" els);
      [discriminate|]. split; [reflexivity | intros _; reflexivity].
Qed.

(** C8 fails on the code.  [load_initial_state] catches
    [FileNotFoundError] and [JSONDecodeError] only: a save file that holds a
    JSON number, [true], [false] or [null] ends [__init__] with a
    [TypeError], one that is not text with a [UnicodeDecodeError], and one
    that holds a list or a string with [score] and [keybinds] in it with an
    [AttributeError].  And a snapshot with no [score] field is not treated
    as no saved game: [saved_state] is false and nothing reads it, the
    "Load Game" button is enabled because the file exists, and [load_game]
    restores the snapshot, here the name Ann, into a paused game. *)
Theorem load_initial_state_crashes :
  (forall g : RNG,
      DinoGame_init_error NoFile g = None /\
      DinoGame_init_error NotJson g = None /\
      DinoGame_init_error JsonScalar g = Some TypeError /\
      DinoGame_init_error NotText g = Some UnicodeDecodeError /\
      DinoGame_init_error (JsonList [Some "score"; Some "keybinds"]) g
      = Some AttributeError /\
      DinoGame_init_error (JsonString "score and keybinds") g
      = Some AttributeError) /\
  (forall g : RNG,
      resume_eligible (JsonFile example_no_score) = false /\
      DinoGame_init_error (JsonFile example_no_score) g = None /\
      saved_state (DinoGame_init (JsonFile example_no_score) g) = false /\
      load_button_enabled (DinoGame_init (JsonFile example_no_score) g)
      = true /\
      load_button_enabled (DinoGame_init NoFile g) = false) /\
  (exists self p,
      load_game example_bbox
        (DinoGame_init (JsonFile example_no_score) example_rng)
      = Some self /\
      session self = Some p /\
      player_name self = Some "Ann" /\
      paused self = true /\
      game_running self = true /\
      List.length (obstacles p) = 2%nat).
Proof.
  split; [|split].
  - intros g. repeat split.
  - intros g. repeat split.
  - eexists _, _. split; [vm_compute; reflexivity|].
    repeat split.
Qed.

(** ** Saving before any game *)

(** C10: when no game has been set up, [save_game_state], and so
    [save_keybinds] from the settings menu, writes [dino_y] 300 with score 0
    and [dino_jump] false.  300 is neither the ground level 248 nor what
    [load_saved_state] takes for a missing [dino_y] key, which is 248 too.
    The snapshot has the [score] and [keybinds] keys, so it is
    resume-eligible, and loading it puts the dino at 300. *)
Theorem snapshot_without_session :
  forall (bbox : item -> box) (self : DinoGame)
         (jump_entry pause_entry boss_entry : string) (g : RNG),
    session self = None ->
    exists snap,
      save_file (save_keybinds jump_entry pause_entry boss_entry self)
      = JsonFile snap /\
      js_dino_y snap = Some 300 /\
      ~ 300 == 248 /\
      js_score snap = Some 0%Z /\
      js_dino_jump snap = Some false /\
      js_obstacles snap = Some [] /\
      js_keybinds snap <> None /\
      resume_eligible (JsonFile snap) = true /\
      saved_state (DinoGame_init (JsonFile snap) g) = true /\
      (exists restored p,
          load_game bbox (save_keybinds jump_entry pause_entry boss_entry self)
          = Some restored /\
          session restored = Some p /\
          dino_y p = 300 /\ dino_jump p = false) /\
      (exists restored p,
          load_game bbox
            (set_save_file (JsonFile (without_dino_y snap))
               (save_keybinds jump_entry pause_entry boss_entry self))
          = Some restored /\
          session restored = Some p /\
          dino_y p = 248).
Proof.
  intros bbox self jump_entry pause_entry boss_entry g Hs.
  unfold save_keybinds, save_game_state, main_menu, with_session.
  cbv beta iota zeta.
  cbn [save_file set_save_file set_session set_keybinds session].
  rewrite Hs. cbn [option_map].
  eexists. split; [reflexivity|].
  unfold game_state. cbn [session set_keybinds]. rewrite Hs.
  cbn [js_dino_y js_score js_dino_jump js_obstacles js_keybinds option_map get].
  repeat split; try discriminate; try reflexivity.
  all: unfold load_game, setup_game; cbv beta iota zeta; cbn [bind];
    unfold load_saved_state, without_dino_y;
    cbn [save_file after set_timers set_paused set_game_running set_session
         set_save_file set_keybinds];
    cbn [js_player_name js_score js_dino_y js_dino_jump js_dino_speed
         js_obstacle_speed js_keybinds js_leaderboard js_obstacles get
         recreate_obstacles];
    match goal with
    | |- context [create_obstacles ?s] =>
        destruct (create_obstacles_empty s _ eq_refl eq_refl)
          as (s' & o1 & o2 & -> & K1 & _)
    end;
    (rewrite setup_game_tail_paused;
     [|cbn [session set_paused]; rewrite K1; discriminate | reflexivity]);
    eexists _, _; (split; [reflexivity|]);
    cbn [after set_timers set_paused session]; rewrite K1;
    repeat split.
Qed.

(** At the menu of an application that has just been started. *)
Lemma snapshot_without_session_witness :
  exists snap,
    save_file (save_keybinds "space" "p" "b" example_menu) = JsonFile snap /\
    js_dino_y snap = Some 300 /\
    ~ 300 == 248 /\
    js_score snap = Some 0%Z /\
    js_dino_jump snap = Some false /\
    js_obstacles snap = Some [] /\
    js_keybinds snap <> None /\
    resume_eligible (JsonFile snap) = true /\
    saved_state (DinoGame_init (JsonFile snap) example_rng) = true /\
    (exists restored p,
        load_game example_bbox (save_keybinds "space" "p" "b" example_menu)
        = Some restored /\
        session restored = Some p /\
        dino_y p = 300 /\ dino_jump p = false) /\
    (exists restored p,
        load_game example_bbox
          (set_save_file (JsonFile (without_dino_y snap))
             (save_keybinds "space" "p" "b" example_menu))
        = Some restored /\
        session restored = Some p /\
        dino_y p = 248).
Proof.
  apply (snapshot_without_session example_bbox example_menu "space" "p" "b"
           example_rng).
  reflexivity.
Defined.

(** ** What the events keep *)

Section Sessions.

Variable bbox : item -> box.

Lemma keeps_refl (self : DinoGame) (p : Session) :
  session self = Some p -> keeps self p self.
Proof. intros H. exists p. repeat split; auto. Qed.

Lemma keeps_trans (self self1 self2 : DinoGame) (p p1 : Session) :
  keeps self p self1 -> session self1 = Some p1 -> keeps self1 p1 self2 ->
  keeps self p self2.
Proof.
  intros (q1 & E1 & L1 & G1 & R1 & A1) Ep1 (p2 & E2 & L2 & G2 & R2 & A2).
  assert (q1 = p1) by congruence. subst q1.
  exists p2. repeat split; auto; congruence.
Qed.

(** Only the session, the player's name and [dino_speed] matter. *)
Lemma keeps_flags (self self' : DinoGame) (p : Session) :
  session self = Some p ->
  session self' = session self -> player_name self' = player_name self ->
  dino_speed self' = dino_speed self ->
  keeps self p self'.
Proof.
  intros Ep Es En Ed. exists p. unfold steady. rewrite Es, En, Ed.
  repeat split; auto.
Qed.

Lemma move_dino_moved (self self' : DinoGame) (p : Session) :
  session self = Some p -> move_dino self = Some self' ->
  player_name self' = player_name self /\
  exists p',
    session self' = Some p' /\ obstacles p' = obstacles p /\
    canvas_alive p' = canvas_alive p /\
    dino_moved self p self' p'.
Proof.
  unfold move_dino, dino_moved. intros Ep H. rewrite Ep in H. cbn [bind] in H.
  inv_bind H as self1 E1. apply Some_eq in H. subst self'.
  destruct (dino_jump p) eqn:Ej.
  - inv_bind E1 as v Ev.
    destruct (Qle_bool 248 (dino_y p + v)) eqn:Hq; apply Some_eq in E1;
      subst self1; unfold with_session; simpl; rewrite Ep; simpl;
      (split; [reflexivity|]); eexists; (split; [reflexivity|]);
      (split; [reflexivity|]); (split; [reflexivity|]);
      exists v; rewrite Hq; auto.
  - apply Some_eq in E1. subst self1.
    unfold with_session; simpl; rewrite Ep; simpl.
    split; [reflexivity|]. eexists. split; [reflexivity|].
    repeat split; auto.
Qed.

Lemma dino_moved_grounded (self self' : DinoGame) (p p' : Session) :
  dino_moved self p self' p' -> grounded p -> grounded p'.
Proof.
  unfold dino_moved, grounded. intros H G.
  destruct (dino_jump p).
  - destruct H as (v & _ & _ & H).
    destruct (Qle_bool 248 (dino_y p + v)); destruct H as (Hy & Hj);
      intros Hj'; [rewrite Hy; reflexivity | congruence].
  - destruct H as (_ & Hy & _). intros _. rewrite Hy. auto.
Qed.

Lemma ready_steady (self : DinoGame) : ready self = true -> steady self = true.
Proof.
  unfold ready, steady. destruct (session self) as [p|]; [|auto].
  destruct (player_name self); [|discriminate].
  intros ->. reflexivity.
Qed.

Lemma no_obstacles_length (l l' : list (item * image_arg)) :
  List.length l' = List.length l ->
  match l' with [] => true | _ :: _ => false end
  = match l with [] => true | _ :: _ => false end.
Proof. destruct l, l'; auto; discriminate. Qed.

Lemma dino_moved_steady (self self' : DinoGame) (p p' : Session) :
  session self = Some p -> session self' = Some p' ->
  player_name self' = player_name self ->
  List.length (obstacles p') = List.length (obstacles p) ->
  dino_moved self p self' p' -> steady self = true -> steady self' = true.
Proof.
  unfold dino_moved, steady. intros -> -> -> L.
  rewrite (no_obstacles_length _ _ L).
  destruct (dino_jump p).
  - intros (v & -> & -> & _) H. destruct (dino_jump p'); exact H.
  - intros (_ & _ & ->) H. apply andb_true_iff in H. destruct H as (_ & ->).
    reflexivity.
Qed.

(** A step that is taken: the dino moves as [dino_moved] says, the score
    and the number of obstacles stay. *)
Lemma update_game_moved (self self' : DinoGame) (p : Session) :
  game_running self = true -> paused self = false ->
  session self = Some p ->
  update_game bbox self = Some self' ->
  exists p',
    session self' = Some p' /\
    player_name self' = player_name self /\
    List.length (obstacles p') = List.length (obstacles p) /\
    canvas_alive p' = canvas_alive p /\
    dino_moved self p self' p'.
Proof.
  intros Hr Hp Ep H.
  apply update_game_running in H; auto.
  destruct H as (self1 & p1 & obs & self2 & E1 & Ep1 & Em & ->).
  destruct (move_dino_moved _ _ p Ep E1) as (N1 & q1 & Eq1 & O1 & A1 & D1).
  assert (q1 = p1) by congruence. subst q1.
  apply move_obstacles_frame in Em.
  destruct Em as (G1 & G2 & _ & _ & _ & G6 & _ & G8).
  unfold after, with_session. simpl. rewrite G1, Ep1. simpl.
  eexists. split; [reflexivity|]. simpl.
  split; [congruence|]. split; [congruence|]. split; [exact A1|].
  unfold dino_moved in *. simpl. rewrite G2. exact D1.
Qed.

Lemma update_game_keeps (self self' : DinoGame) (p : Session) :
  session self = Some p -> update_game bbox self = Some self' ->
  keeps self p self'.
Proof.
  intros Ep H.
  destruct (game_running self) eqn:Hr; cycle 1.
  { rewrite update_game_skipped in H by auto. apply Some_eq in H. subst.
    apply keeps_refl, Ep. }
  destruct (paused self) eqn:Hp.
  { rewrite update_game_skipped in H by auto. apply Some_eq in H. subst.
    apply keeps_refl, Ep. }
  destruct (update_game_moved _ _ p Hr Hp Ep H)
    as (p' & Ep' & N & L & A & D).
  exists p'. repeat split; auto.
  - eapply dino_moved_grounded; eauto.
  - eapply dino_moved_steady; eauto.
Qed.

Lemma increment_score_keeps (self self' : DinoGame) (p : Session) :
  session self = Some p -> increment_score self = Some self' ->
  keeps self p self'.
Proof.
  unfold increment_score. intros Ep H.
  destruct (game_running self && negb (paused self)).
  - rewrite Ep in H. cbn [bind] in H. apply Some_eq in H. subst self'.
    unfold keeps, steady, grounded, after, with_session. simpl.
    rewrite Ep. simpl. eexists. split; [reflexivity|]. simpl.
    repeat split; auto.
  - apply Some_eq in H. subst. apply keeps_refl, Ep.
Qed.

Lemma increase_speed_keeps (self self' : DinoGame) (p : Session) :
  session self = Some p -> increase_speed self = Some self' ->
  keeps self p self'.
Proof.
  unfold increase_speed. intros Ep H. rewrite Ep in H. cbn [bind] in H.
  apply Some_eq in H. subst self'.
  unfold keeps, steady, grounded, after, with_session.
  destruct (Qltb (obstacle_speed p) max_speed && negb (paused self));
    simpl; rewrite Ep; simpl; eexists; (split; [reflexivity|]); simpl;
    repeat split; auto.
Qed.

Lemma jump_keeps (self self' : DinoGame) (p : Session) :
  session self = Some p -> jump self = Some self' -> keeps self p self'.
Proof.
  unfold jump. intros Ep H. rewrite Ep in H. cbn [bind] in H.
  destruct (negb (dino_jump p) && negb (paused self));
    apply Some_eq in H; subst self'; [|apply keeps_refl, Ep].
  unfold keeps, steady, grounded, with_session. simpl. rewrite Ep. simpl.
  eexists. split; [reflexivity|]. simpl.
  repeat split; [discriminate|].
  intros H. apply andb_true_iff in H. apply H.
Qed.

Lemma pause_keeps (self self' : DinoGame) (p : Session) :
  session self = Some p -> pause bbox self = Some self' -> keeps self p self'.
Proof.
  unfold pause. intros Ep H.
  destruct (negb (game_running self)).
  { apply Some_eq in H. subst. apply keeps_refl, Ep. }
  assert (K0 : keeps self p (set_paused (negb (paused self)) self))
    by (apply keeps_flags; auto).
  destruct (paused (set_paused (negb (paused self)) self)).
  { apply Some_eq in H. subst. exact K0. }
  inv_bind H as self1 E1.
  assert (K1 : keeps (set_paused (negb (paused self)) self) p self1)
    by (apply update_game_keeps; auto).
  destruct K1 as (p1 & Ep1 & K1).
  apply (keeps_trans self (set_paused (negb (paused self)) self) self' p p);
    [exact K0 | exact Ep |].
  apply (keeps_trans _ self1 self' p p1);
    [exists p1; split; [exact Ep1 | exact K1] | exact Ep1 |].
  apply increment_score_keeps; auto.
Qed.

(** Every event keeps the session, the number of obstacles, a grounded dino,
    steadiness and the canvas. *)
Lemma dispatch_keeps (e : event) (self self' : DinoGame) (p : Session) :
  session self = Some p -> dispatch bbox e self = Some self' ->
  keeps self p self'.
Proof.
  intros Ep H. destruct e as [[]| | | |char]; cbn [dispatch call] in H.
  - eapply increase_speed_keeps; eauto.
  - eapply update_game_keeps; eauto.
  - eapply increment_score_keeps; eauto.
  - apply Some_eq in H. subst. apply keeps_flags; auto.
  - eapply jump_keeps; eauto.
  - eapply pause_keeps; eauto.
  - apply Some_eq in H. subst. apply keeps_flags; auto;
      unfold boss_key; destruct (negb (game_running self)); auto;
      destruct (negb (paused self)); auto.
  - apply Some_eq in H. subst. apply keeps_flags; auto;
      unfold handle_cheat_code, activate_invincibility;
      destruct ((String.eqb char "c" || String.eqb char "C")
                && game_running self); auto;
      destruct (negb (invincible self)); auto.
Qed.

Lemma run_keeps (events : list event) :
  forall (self self' : DinoGame) (p : Session),
    session self = Some p -> run bbox events self = Some self' ->
    keeps self p self'.
Proof.
  induction events as [|e events IH]; intros self self' p Ep H.
  - apply Some_eq in H. subst. apply keeps_refl, Ep.
  - cbn [run] in H. inv_bind H as self1 E1.
    pose proof (dispatch_keeps e _ _ p Ep E1) as K1.
    destruct K1 as (p1 & Ep1 & K1).
    eapply keeps_trans; [exists p1; split; [exact Ep1 | exact K1] | exact Ep1 |].
    eapply IH; eauto.
Qed.

Lemma steady_session (self : DinoGame) :
  steady self = true -> exists p, session self = Some p.
Proof.
  unfold steady. destruct (session self) as [p|]; [eauto | discriminate].
Qed.

Lemma move_dino_steady (self : DinoGame) :
  steady self = true -> exists self', move_dino self = Some self'.
Proof.
  unfold steady, move_dino. intros H.
  destruct (session self) as [p|]; [cbn [bind] | discriminate].
  apply andb_true_iff in H. destruct H as (H & _).
  destruct (dino_jump p); cbn [bind]; [|eauto].
  destruct (dino_speed self) as [v|]; [cbn [bind] | discriminate].
  destruct (Qle_bool 248 (dino_y p + v)); cbn [bind]; eauto.
Qed.

(** A step raises nothing in a steady session: with no obstacle the loop
    has nothing to do, and with a name [game_over] has what it reads. *)
Lemma update_game_steady (self : DinoGame) :
  steady self = true -> exists self', update_game bbox self = Some self'.
Proof.
  intros Hs. destruct (ready self) eqn:Hr; [apply update_game_total, Hr|].
  unfold update_game.
  destruct (negb (game_running self) || paused self); [eauto|].
  destruct (move_dino_steady self Hs) as [self1 E1]. rewrite E1. cbn [bind].
  destruct (move_dino_frame _ _ E1)
    as (_ & _ & _ & _ & _ & _ & _ & _ & _ & _ & p & p1 & Ep & Ep1 & Ho & _).
  rewrite Ep1. cbn [bind].
  unfold steady in Hs. unfold ready in Hr. rewrite Ep in Hs, Hr.
  apply andb_true_iff in Hs. destruct Hs as (H1 & H2).
  destruct (player_name self); [rewrite H1 in Hr; discriminate|].
  rewrite Ho. destruct (obstacles p); [|discriminate].
  cbn [move_obstacles bind]. eauto.
Qed.

Lemma increment_score_total (self : DinoGame) :
  session self <> None -> exists self', increment_score self = Some self'.
Proof.
  unfold increment_score. intros H.
  destruct (game_running self && negb (paused self)); [|eauto].
  destruct (session self); [simpl; eauto | tauto].
Qed.

(** No event raises in a steady session. *)
Lemma dispatch_total (e : event) (self : DinoGame) :
  steady self = true -> exists self', dispatch bbox e self = Some self'.
Proof.
  intros Hr. destruct (steady_session self Hr) as (p & Ep).
  assert (Hs : session self <> None) by (rewrite Ep; discriminate).
  destruct e as [[]| | | |char]; cbn [dispatch call]; eauto.
  - apply increase_speed_total, Hs.
  - apply update_game_steady, Hr.
  - apply increment_score_total, Hs.
  - unfold jump. rewrite Ep. cbn [bind].
    destruct (negb (dino_jump p) && negb (paused self)); eauto.
  - unfold pause. destruct (negb (game_running self)); [eauto|].
    destruct (paused (set_paused (negb (paused self)) self)); [eauto|].
    assert (Hr' : steady (set_paused (negb (paused self)) self) = true)
      by exact Hr.
    destruct (update_game_steady _ Hr') as [self1 E1].
    rewrite E1. cbn [bind].
    apply increment_score_total.
    destruct (update_game_keeps (set_paused (negb (paused self)) self) _ p
                Ep E1) as (p1 & -> & _).
    discriminate.
Qed.

Lemma run_total (events : list event) :
  forall self : DinoGame,
    steady self = true -> exists self', run bbox events self = Some self'.
Proof.
  induction events as [|e events IH]; intros self Hr; cbn [run]; [eauto|].
  destruct (dispatch_total e self Hr) as (self1 & E1). rewrite E1.
  cbn [bind]. apply IH.
  destruct (steady_session self Hr) as (p & Ep).
  destruct (dispatch_keeps e _ _ p Ep E1) as (p1 & _ & _ & _ & R & _). auto.
Qed.

(** The three calls that end [setup_game]. *)
Lemma setup_game_tail (self : DinoGame) (p : Session) :
  session self = Some p -> steady self = true ->
  exists self',
    (self1 <- increase_speed self ;;
     self2 <- update_game bbox self1 ;; increment_score self2) = Some self' /\
    keeps self p self'.
Proof.
  intros Ep Hr.
  destruct (increase_speed_total self) as [s1 E1]; [rewrite Ep; discriminate|].
  rewrite E1. cbn [bind].
  pose proof (increase_speed_keeps _ _ p Ep E1) as K1.
  destruct K1 as (p1 & Ep1 & K1).
  destruct (update_game_steady s1) as [s2 E2]; [apply K1, Hr|].
  rewrite E2. cbn [bind].
  pose proof (update_game_keeps _ _ p1 Ep1 E2) as K2.
  destruct K2 as (p2 & Ep2 & K2).
  destruct (increment_score_total s2) as [s3 E3]; [rewrite Ep2; discriminate|].
  exists s3. split; [exact E3|].
  eapply keeps_trans; [exists p1; split; [exact Ep1 | exact K1] | exact Ep1 |].
  eapply keeps_trans; [exists p2; split; [exact Ep2 | exact K2] | exact Ep2 |].
  apply increment_score_keeps; auto.
Qed.

End Sessions.

(** ** How a session begins *)

Section Beginnings.

Variable bbox : item -> box.

(** A game started from the menu: no exception, a ready session on a new
    canvas, the dino on the ground, two obstacles. *)
Lemma save_name_and_start_begins (name_entry : string) (self0 : DinoGame) :
  exists first p,
    save_name_and_start bbox name_entry self0 = Some first /\
    session first = Some p /\ steady first = true /\ grounded p /\
    List.length (obstacles p) = 2%nat /\ canvas_alive p = true.
Proof.
  unfold save_name_and_start, start_game, setup_game. cbv beta iota zeta.
  match goal with
  | |- context [create_obstacles ?s] =>
      destruct (create_obstacles_empty s _ eq_refl eq_refl)
        as (s1 & o1 & o2 & E1 & Ep1 & N1 & D1 & _)
  end.
  rewrite E1. cbn [bind].
  assert (R1 : ready s1 = true).
  { unfold ready. rewrite Ep1, N1. reflexivity. }
  destruct (setup_game_tail bbox s1 _ Ep1 (ready_steady s1 R1))
    as (first & E & p & Ep & L & G & R & A).
  exists first, p. split; [exact E|]. split; [exact Ep|].
  split; [apply R, ready_steady, R1|]. split; [|split; [exact L | exact A]].
  apply G. intros _. reflexivity.
Qed.

Lemma list_item_obstacle_images (i : Z) :
  (i = 0%Z \/ i = (-1)%Z) ->
  list_item obstacle_images i = Some "rock_new.png".
Proof. intros [-> | ->]; reflexivity. Qed.

Lemma recreate_obstacles_loadable (l : list obstacle_info) :
  Forall loadable l ->
  exists obs,
    recreate_obstacles l = (obs, true) /\ List.length obs = List.length l.
Proof.
  induction 1 as [|r l Hr Hl (obs & IH & Hlen)]; cbn [recreate_obstacles].
  - exists []. auto.
  - rewrite (list_item_obstacle_images _ Hr). rewrite IH.
    eexists. split; [reflexivity|]. cbn [List.length]. rewrite Hlen.
    reflexivity.
Qed.

(** [load_saved_state] on a JSON object: whatever the object holds, the
    session is ready afterwards, on the canvas it had, and height and jump
    flag are the file's or their defaults; when all the records are loadable there are as many
    obstacles as records, and two when there is no record. *)
Lemma load_saved_state_json (self : DinoGame) (snap : snapshot)
      (p0 : Session) :
  save_file self = JsonFile snap -> session self = Some p0 ->
  exists p,
    session (load_saved_state self) = Some p /\
    ready (load_saved_state self) = true /\
    dino_y p = get (js_dino_y snap) 248 /\
    dino_jump p = get (js_dino_jump snap) false /\
    canvas_alive p = canvas_alive p0 /\
    (Forall loadable (get (js_obstacles snap) []) ->
     List.length (obstacles p) =
       match get (js_obstacles snap) [] with
       | [] => 2%nat
       | l => List.length l
       end).
Proof.
  intros Hf H0. unfold load_saved_state. rewrite Hf.
  match goal with
  | |- context [with_session (set_obstacles _) ?s] => set (base := s)
  end.
  assert (Hb : session base =
               Some (set_obstacle_speed (get (js_obstacle_speed snap) 5)
                       (set_dino_jump (get (js_dino_jump snap) false)
                          (set_dino_y (get (js_dino_y snap) 248)
                             (set_score (get (js_score snap) 0%Z) p0)))) /\
               player_name base
               = Some (get (js_player_name snap) "Player") /\
               dino_speed base = Some (get (js_dino_speed snap) 0)).
  { subst base. unfold with_session.
    cbn [session set_session set_keybinds set_dino_speed set_player_name
         player_name dino_speed].
    rewrite H0. cbn [option_map]. auto. }
  clearbody base. destruct Hb as (B1 & B2 & B3).
  destruct (recreate_obstacles (get (js_obstacles snap) [])) as [obs ok] eqn:Er.
  assert (Hlen : Forall loadable (get (js_obstacles snap) []) ->
                 ok = true /\
                 List.length obs = List.length (get (js_obstacles snap) [])).
  { intros Hl. destruct (recreate_obstacles_loadable _ Hl) as (obs' & E & L).
    rewrite Er in E. injection E as -> ->. auto. }
  assert (Hw : forall o, session (with_session (set_obstacles o) base)
                         = Some (set_obstacles o
                                   (set_obstacle_speed
                                      (get (js_obstacle_speed snap) 5)
                                      (set_dino_jump
                                         (get (js_dino_jump snap) false)
                                         (set_dino_y (get (js_dino_y snap) 248)
                                            (set_score (get (js_score snap) 0%Z)
                                               p0)))))).
  { intros o. unfold with_session. cbn [session set_session]. rewrite B1.
    reflexivity. }
  destruct ok.
  - destruct obs as [|o obs].
    + destruct (create_obstacles_empty
                  (with_session (set_obstacles []) base) _ (Hw []) eq_refl)
        as (s1 & o1 & o2 & -> & E1 & N1 & D1 & _).
      eexists. split; [exact E1|]. unfold ready.
      cbn [set_paused session player_name dino_speed]. rewrite E1, N1, D1.
      unfold with_session. cbn [player_name dino_speed set_session].
      rewrite B2, B3.
      split; [destruct (get (js_dino_jump snap) false); reflexivity|].
      split; [reflexivity|]. split; [reflexivity|]. split; [reflexivity|].
      intros Hl. destruct (Hlen Hl) as (_ & L).
      destruct (get (js_obstacles snap) []); [reflexivity | discriminate].
    + eexists. split; [apply Hw|]. unfold ready.
      cbn [set_paused session player_name dino_speed]. rewrite Hw.
      unfold with_session. cbn [player_name dino_speed set_session].
      rewrite B2, B3.
      split; [destruct (get (js_dino_jump snap) false); reflexivity|].
      split; [reflexivity|]. split; [reflexivity|]. split; [reflexivity|].
      intros Hl. destruct (Hlen Hl) as (_ & L).
      cbn [obstacles set_obstacles]. rewrite L.
      destruct (get (js_obstacles snap) []); [discriminate | reflexivity].
  - eexists. split; [apply Hw|]. unfold ready. rewrite Hw.
    unfold with_session. cbn [player_name dino_speed set_session].
    rewrite B2, B3.
    split; [destruct (get (js_dino_jump snap) false); reflexivity|].
    split; [reflexivity|]. split; [reflexivity|]. split; [reflexivity|].
    intros Hl. destruct (Hlen Hl) as (? & _). discriminate.
Qed.

(** What [load_saved_state] cannot read it leaves alone. *)
Lemma load_saved_state_nothing (self : DinoGame) :
  (forall snap, save_file self <> JsonFile snap) ->
  load_saved_state self = self.
Proof.
  unfold load_saved_state. intros H.
  destruct (save_file self) as [| |snap| | |txt|els]; try reflexivity.
  destruct (H snap eq_refl).
Qed.

(** The three calls that end [setup_game] leave a dino on the ground where
    it is. *)
Lemma setup_game_tail_still (self self' : DinoGame) (p : Session) :
  session self = Some p -> dino_jump p = false ->
  (self1 <- increase_speed self ;;
   self2 <- update_game bbox self1 ;; increment_score self2) = Some self' ->
  exists p',
    session self' = Some p' /\ dino_jump p' = false /\ dino_y p' = dino_y p.
Proof.
  intros Ep Hj H. inv_bind H as s1 E1. inv_bind H as s2 E2.
  assert (H1 : exists p1, session s1 = Some p1 /\ dino_jump p1 = false /\
                          dino_y p1 = dino_y p).
  { unfold increase_speed in E1. rewrite Ep in E1. cbn [bind] in E1.
    apply Some_eq in E1. subst s1. unfold after, with_session.
    destruct (Qltb (obstacle_speed p) max_speed && negb (paused self));
      simpl; rewrite Ep; simpl; eexists; (split; [reflexivity|]); auto. }
  destruct H1 as (p1 & Ep1 & Hj1 & Hy1).
  assert (H2 : exists p2, session s2 = Some p2 /\ dino_jump p2 = false /\
                          dino_y p2 = dino_y p).
  { destruct (game_running s1) eqn:Hr; cycle 1.
    { rewrite update_game_skipped in E2 by auto. apply Some_eq in E2.
      subst s2. eauto. }
    destruct (paused s1) eqn:Hp.
    { rewrite update_game_skipped in E2 by auto. apply Some_eq in E2.
      subst s2. eauto. }
    destruct (update_game_moved bbox _ _ p1 Hr Hp Ep1 E2)
      as (p2 & Ep2 & _ & _ & _ & D).
    unfold dino_moved in D. rewrite Hj1 in D. destruct D as (_ & Dy & Dj).
    exists p2. repeat split; auto. congruence. }
  destruct H2 as (p2 & Ep2 & Hj2 & Hy2).
  unfold increment_score in H.
  destruct (game_running s2 && negb (paused s2)).
  - rewrite Ep2 in H. cbn [bind] in H. apply Some_eq in H. subst self'.
    unfold after, with_session. simpl. rewrite Ep2. simpl.
    eexists. split; [reflexivity|]. auto.
  - apply Some_eq in H. subst self'. eauto.
Qed.

(** A game loaded from the save file, whatever the file holds: no exception
    and a steady session on a new canvas.  The dino is grounded if the file
    is, and when the file holds a snapshot only then; there are two
    obstacles if the snapshot lists none or two loadable ones. *)
Lemma load_game_begins (self0 : DinoGame) :
  exists first p,
    load_game bbox self0 = Some first /\
    session first = Some p /\ steady first = true /\
    canvas_alive p = true /\
    (file_grounded (save_file self0) -> grounded p) /\
    (forall snap, save_file self0 = JsonFile snap ->
                  ~ snapshot_grounded snap -> ~ grounded p) /\
    (forall snap, save_file self0 = JsonFile snap ->
                  pool_of_two snap -> List.length (obstacles p) = 2%nat).
Proof.
  unfold load_game, setup_game. cbv beta iota zeta. cbn [bind].
  match goal with
  | |- context [load_saved_state ?s] => set (s0 := s)
  end.
  assert (Hf0 : save_file s0 = save_file self0) by reflexivity.
  assert (Ep0 : exists p0, session s0 = Some p0 /\ canvas_alive p0 = true /\
                           dino_y p0 = 248 /\ dino_jump p0 = false /\
                           obstacles p0 = [])
    by (eexists; split; [reflexivity | repeat split]).
  clearbody s0. destruct Ep0 as (p0 & Ep0 & A0 & Y0 & J0 & O0).
  destruct (save_file self0) as [| |snap| | |txt|els] eqn:Hf.
  3: {
    destruct (load_saved_state_json s0 snap p0 Hf0 Ep0)
      as (p1 & Ep1 & R1 & Y1 & J1 & C1 & L1).
    set (s1 := load_saved_state s0) in *.
    destruct (setup_game_tail bbox s1 p1 Ep1 (ready_steady s1 R1))
      as (first & E & p & Ep & L & G & R & A).
    exists first, p. split; [exact E|]. split; [exact Ep|].
    split; [apply R, ready_steady, R1|].
    split; [rewrite A, C1; exact A0|]. split; [|split].
    - intros Hg. apply G. unfold grounded. rewrite Y1, J1. exact Hg.
    - intros snap' Hs Hn Hg.
      assert (snap' = snap) by congruence. subst snap'.
      apply Hn. intros Hj.
      assert (Hj1 : dino_jump p1 = false) by congruence.
      destruct (setup_game_tail_still s1 first p1 Ep1 Hj1 E)
        as (q & Eq & Hjq & Hyq).
      assert (q = p) by congruence. subst q.
      rewrite <- Y1, <- Hyq. apply Hg, Hjq.
    - intros snap' Hs (Hl & Hn).
      assert (snap' = snap) by congruence. subst snap'.
      rewrite L, (L1 Hl).
      destruct (get (js_obstacles snap) []) as [|r l]; [reflexivity|].
      destruct Hn as [Hn | Hn]; [discriminate | exact Hn]. }
  all: rewrite (load_saved_state_nothing s0)
    by (intros snap; rewrite Hf0; discriminate).
  all: assert (S0 : steady s0 = true)
    by (unfold steady; rewrite Ep0, J0, O0; cbn [implb andb];
        apply orb_true_r).
  all: destruct (setup_game_tail bbox s0 p0 Ep0 S0)
    as (first & E & p & Ep & L & G & R & A).
  all: exists first, p; split; [exact E|]; split; [exact Ep|];
    split; [apply R, S0|]; split; [congruence|]; split;
    [intros _; apply G; intros _; rewrite Y0; reflexivity|];
    split; intros snap; discriminate.
Qed.

(** What [save_game_state] writes from a grounded session is grounded, and
    from a session with two obstacles a snapshot with none or two loadable
    ones. *)
Lemma game_state_grounded (self : DinoGame) (p : Session) :
  session self = Some p -> grounded p -> snapshot_grounded (game_state self).
Proof.
  unfold snapshot_grounded, grounded, game_state. intros -> H.
  cbn [js_dino_jump js_dino_y option_map get]. exact H.
Qed.


End Beginnings.

(** C5, as amended: in every state reached by timer callbacks and key
    presses from a game started from the menu, or from a game loaded from a
    save file that holds no snapshot or one in which a dino that is not
    jumping stands at 248 (as it does in every snapshot saved from a session
    where it does), a dino that is not jumping stands at 248; no event
    raises on the way, and the canvas of the game is still there.  A game
    loaded from a snapshot in which a dino that is not jumping stands
    elsewhere begins with the dino not jumping and elsewhere.  The speed of
    the dino is not set back on landing: a step taken while jumping, the
    landing one included, adds gravity to it, and a step taken on the ground
    leaves it alone. *)
Theorem grounded_when_not_jumping :
  forall bbox : item -> box,
    (forall (name_entry : string) (self0 : DinoGame) (events : list event),
        exists first self p,
          save_name_and_start bbox name_entry self0 = Some first /\
          run bbox events first = Some self /\
          session self = Some p /\
          canvas_alive p = true /\
          grounded p) /\
    (forall (self0 : DinoGame) (events : list event),
        file_grounded (save_file self0) ->
        exists first self p,
          load_game bbox self0 = Some first /\
          run bbox events first = Some self /\
          session self = Some p /\
          canvas_alive p = true /\
          grounded p) /\
    (forall (self0 : DinoGame) (snap : snapshot),
        save_file self0 = JsonFile snap ->
        ~ snapshot_grounded snap ->
        exists first p,
          load_game bbox self0 = Some first /\
          session first = Some p /\
          ~ grounded p) /\
    (forall (self : DinoGame) (p : Session),
        session self = Some p -> grounded p ->
        snapshot_grounded (game_state self)) /\
    (forall (self self' : DinoGame) (p : Session),
        game_running self = true -> paused self = false ->
        session self = Some p ->
        update_game bbox self = Some self' ->
        (dino_jump p = true ->
         exists v,
           dino_speed self = Some v /\
           dino_speed self' = Some (v + gravity)) /\
        (dino_jump p = false -> dino_speed self' = dino_speed self)).
Proof.
  intros bbox. split; [|split; [|split; [|split]]].
  - intros name_entry self0 events.
    destruct (save_name_and_start_begins bbox name_entry self0)
      as (first & p0 & E & Ep0 & R0 & G0 & _ & A0).
    destruct (run_total bbox events first R0) as (self & Er).
    destruct (run_keeps bbox events _ _ p0 Ep0 Er)
      as (p & Ep & _ & G & _ & A).
    exists first, self, p. repeat split; auto. congruence.
  - intros self0 events Hg.
    destruct (load_game_begins bbox self0)
      as (first & p0 & E & Ep0 & R0 & A0 & G0 & _).
    destruct (run_total bbox events first R0) as (self & Er).
    destruct (run_keeps bbox events _ _ p0 Ep0 Er)
      as (p & Ep & _ & G & _ & A).
    exists first, self, p. repeat split; auto. congruence.
  - intros self0 snap Hf Hn.
    destruct (load_game_begins bbox self0)
      as (first & p0 & E & Ep0 & _ & _ & _ & N0 & _).
    exists first, p0. repeat split; auto. exact (N0 snap Hf Hn).
  - apply game_state_grounded.
  - intros self self' p Hr Hp Ep H.
    destruct (update_game_moved bbox _ _ p Hr Hp Ep H)
      as (p' & _ & _ & _ & _ & D).
    unfold dino_moved in D. split; intros Hj; rewrite Hj in D.
    + destruct D as (v & D1 & D2 & _). eauto.
    + tauto.
Qed.

(** C5 at a game loaded after "Save and Quit", at a game loaded from the
    snapshot that [save_keybinds] writes before any game, and at the step in
    which the jump of [example_airborne] lands. *)
Lemma grounded_when_not_jumping_witness :
  (exists first self p,
      load_game example_bbox (save_and_quit example_recycling) = Some first /\
      run example_bbox [PauseKey; JumpKey; Timer cb_update_game] first
      = Some self /\
      session self = Some p /\
      canvas_alive p = true /\
      grounded p) /\
  (exists first p,
      load_game example_bbox (save_keybinds "space" "p" "b" example_menu)
      = Some first /\
      session first = Some p /\
      ~ grounded p) /\
  (exists v,
      dino_speed example_airborne = Some v /\
      dino_speed example_landed = Some (v + gravity)).
Proof.
  destruct (grounded_when_not_jumping example_bbox)
    as (_ & H2 & H3 & _ & H5).
  split; [|split].
  - apply (H2 (save_and_quit example_recycling)).
    intros _. reflexivity.
  - apply (H3 (save_keybinds "space" "p" "b" example_menu)
              (game_state (save_keybinds "space" "p" "b" example_menu)));
      [reflexivity|].
    intros H. specialize (H eq_refl). revert H. vm_compute. discriminate.
  - apply (H5 example_airborne example_landed example_airborne_play);
      vm_compute; reflexivity.
Defined.

(** C5, as stated, fails twice.  After a jump has landed the dino is on the
    ground with the speed of its last step in the air plus gravity, about
    17.2; and a session restored from the snapshot that [save_keybinds]
    writes before any game, in which the dino does not jump and is at 300,
    rests at 300. *)
Lemma player_invariant_fails :
  (exists self p,
      bind example_game
           (run example_bbox (JumpKey :: repeat (Timer cb_update_game) 28))
      = Some self /\
      session self = Some p /\
      dino_jump p = false /\ dino_y p == 248 /\
      17 < get (dino_speed self) 0 /\
      ~ player_invariant self p) /\
  (exists self p,
      load_game example_bbox (save_keybinds "space" "p" "b" example_menu)
      = Some self /\
      session self = Some p /\
      dino_jump p = false /\ dino_y p == 300 /\
      ~ snapshot_grounded
          (game_state (save_keybinds "space" "p" "b" example_menu)) /\
      ~ player_invariant self p).
Proof.
  split.
  - eexists _, _. split; [vm_compute; reflexivity|].
    split; [reflexivity|]. split; [reflexivity|].
    split; [reflexivity|]. split; [reflexivity|].
    intros H. destruct (H eq_refl) as (_ & H0). revert H0. vm_compute.
    discriminate.
  - eexists _, _. split; [vm_compute; reflexivity|].
    split; [reflexivity|]. split; [reflexivity|]. split; [reflexivity|].
    split.
    + intros H. specialize (H eq_refl). revert H. vm_compute. discriminate.
    + intros H. destruct (H eq_refl) as (H0 & _). revert H0. vm_compute.
      discriminate.
Qed.

(** ** Where the obstacles go *)

Section Positions.

Variable bbox : item -> box.



End Positions.




(** * Further properties of the code *)

(** ** What a step keeps *)

Section StepEffects.

Variable bbox : item -> box.

(** Whatever a step does, it keeps score, speed and the number of obstacles,
    and the flags other than [game_running]. *)
Lemma update_game_effect (self self' : DinoGame) (p : Session) :
  update_game bbox self = Some self' -> session self = Some p ->
  exists p',
    session self' = Some p' /\ score p' = score p /\
    obstacle_speed p' = obstacle_speed p /\
    canvas_alive p' = canvas_alive p /\
    List.length (obstacles p') = List.length (obstacles p) /\
    paused self' = paused self /\ invincible self' = invincible self /\
    keybinds self' = keybinds self /\ player_name self' = player_name self.
Proof.
  intros H Ep.
  destruct (game_running self) eqn:Hr; cycle 1.
  { rewrite update_game_skipped in H by auto. apply Some_eq in H. subst.
    exists p. repeat split; auto. }
  destruct (paused self) eqn:Hp.
  { rewrite update_game_skipped in H by auto. apply Some_eq in H. subst.
    exists p. repeat split; auto. }
  apply update_game_running in H; auto.
  destruct H as (self1 & p1 & obs & self2 & E1 & Ep1 & Em & ->).
  apply move_dino_frame in E1.
  destruct E1 as (_ & F2 & F3 & _ & _ & F6 & _ & _ & _ & F10 & q & q1 & Eq
                  & Eq1 & Ho & Hsc & Hv & Hc).
  assert (q = p) by congruence. assert (q1 = p1) by congruence. subst q q1.
  apply move_obstacles_frame in Em.
  destruct Em as (G1 & _ & G3 & G4 & _ & G6 & G7 & G8).
  unfold after, with_session. cbn [session set_session set_timers].
  rewrite G1, Ep1. cbn [option_map].
  eexists. split; [reflexivity|].
  simpl. repeat split; congruence.
Qed.

Lemma increment_score_effect (self self' : DinoGame) (p : Session) :
  increment_score self = Some self' -> session self = Some p ->
  self' =
    (if game_running self && negb (paused self)
     then after 100 cb_increment_score
            (set_session (Some (set_score (score p + 1)%Z p)) self)
     else self).
Proof.
  unfold increment_score. intros H Ep.
  destruct (game_running self && negb (paused self)).
  - rewrite Ep in H. cbn [bind] in H. apply Some_eq in H. subst self'.
    unfold with_session. rewrite Ep. reflexivity.
  - apply Some_eq in H. auto.
Qed.

End StepEffects.

(** ** After the game is over; while the game is paused *)

Section Frozen.

Variable bbox : item -> box.

Lemma dispatch_after_game_over (e : event) (self : DinoGame) (p : Session) :
  game_running self = false -> session self = Some p ->
  exists self' p',
    dispatch bbox e self = Some self' /\ session self' = Some p' /\
    game_running self' = false /\
    leaderboard self' = leaderboard self /\
    save_file self' = save_file self /\
    saved_state self' = saved_state self /\
    paused self' = paused self /\
    score p' = score p /\ obstacles p' = obstacles p /\
    dino_y p' = dino_y p /\ dino p' = dino p /\
    canvas_alive p' = canvas_alive p.
Proof.
  intros Hr Ep.
  destruct e as [[]| | | |char]; cbn [dispatch call].
  - unfold increase_speed. rewrite Ep. cbn [bind].
    destruct (Qltb (obstacle_speed p) max_speed && negb (paused self));
      unfold after, with_session; rewrite ?Ep; simpl;
      eexists _, _; repeat split; eauto.
  - rewrite update_game_skipped by auto. exists self, p. repeat split; auto.
  - unfold increment_score. rewrite Hr. cbn [andb].
    exists self, p. repeat split; auto.
  - unfold deactivate_invincibility. simpl. eexists _, _. repeat split; eauto.
  - unfold jump. rewrite Ep. cbn [bind].
    destruct (negb (dino_jump p) && negb (paused self));
      unfold with_session; rewrite ?Ep; simpl;
      eexists _, _; repeat split; eauto.
  - unfold pause. rewrite Hr. cbn [negb].
    exists self, p. repeat split; auto.
  - unfold boss_key. rewrite Hr. cbn [negb].
    exists self, p. repeat split; auto.
  - unfold handle_cheat_code. rewrite Hr, andb_false_r.
    exists self, p. repeat split; auto.
Qed.

Lemma dispatch_while_paused (e : event) (self : DinoGame) (p : Session) :
  paused self = true -> session self = Some p -> e <> PauseKey ->
  exists self',
    dispatch bbox e self = Some self' /\ session self' = Some p /\
    paused self' = true /\
    game_running self' = game_running self /\
    leaderboard self' = leaderboard self /\
    save_file self' = save_file self /\
    dino_speed self' = dino_speed self /\
    rng self' = rng self.
Proof.
  intros Hp Ep Hne.
  destruct e as [[]| | | |char]; cbn [dispatch call]; try contradiction.
  - unfold increase_speed. rewrite Ep. cbn [bind].
    rewrite Hp, andb_false_r. unfold after. simpl.
    eexists. repeat split; eauto.
  - rewrite update_game_skipped by auto. exists self. repeat split; auto.
  - unfold increment_score. rewrite Hp, andb_false_r.
    exists self. repeat split; auto.
  - unfold deactivate_invincibility. simpl. eexists. repeat split; eauto.
  - unfold jump. rewrite Ep. cbn [bind]. rewrite Hp, andb_false_r.
    exists self. repeat split; auto.
  - unfold boss_key. rewrite Hp.
    destruct (negb (game_running self)); exists self; repeat split; auto.
  - unfold handle_cheat_code, activate_invincibility, after.
    destruct ((String.eqb char "c" || String.eqb char "C")
              && game_running self); [|exists self; repeat split; auto].
    destruct (negb (invincible self)); simpl;
      eexists; repeat split; eauto.
Qed.

End Frozen.

(** X1: once the game is over, no timer and no key brings it back or
    touches its result: whatever events follow while the canvas is there,
    none raises, the game stays over, and the leaderboard, the save file,
    the pause flag, the score, the obstacles and the dino's height are as
    the collision left them. *)
Theorem game_over_is_final :
  forall (bbox : item -> box) (events : list event) (self : DinoGame)
         (p : Session),
    game_running self = false ->
    session self = Some p ->
    canvas_alive p = true ->
    exists self' p',
      run bbox events self = Some self' /\ session self' = Some p' /\
      game_running self' = false /\
      leaderboard self' = leaderboard self /\
      save_file self' = save_file self /\
      paused self' = paused self /\
      score p' = score p /\ obstacles p' = obstacles p /\
      dino_y p' = dino_y p.
Proof.
  intros bbox events.
  induction events as [|e events IH]; intros self p Hr Ep Ha.
  - exists self, p. repeat split; auto.
  - destruct (dispatch_after_game_over bbox e self p Hr Ep)
      as (self1 & p1 & E & Ep1 & Hr1 & L1 & F1 & _ & P1 & S1 & O1 & Y1 & _
          & A1).
    destruct (IH self1 p1 Hr1 Ep1 (eq_trans A1 Ha))
      as (self' & p' & Er & Ep' & Hr' & L' & F' & P' & S' & O' & Y').
    exists self', p'. cbn [run]. rewrite E. cbn [bind].
    repeat split; congruence.
Qed.

(** After the collision of [example_after_hit], under a burst of events. *)
Lemma game_over_is_final_witness :
  exists self' p',
    run example_bbox
        [JumpKey; PauseKey; Timer cb_update_game; Timer cb_increment_score;
         Key "c"; BossKey; Timer cb_increase_speed]
        example_after_hit = Some self' /\
    session self' = Some p' /\
    game_running self' = false /\
    leaderboard self' = leaderboard example_after_hit /\
    save_file self' = save_file example_after_hit /\
    paused self' = paused example_after_hit /\
    score p' = score example_hit_play /\
    obstacles p' = obstacles example_hit_play /\
    dino_y p' = dino_y example_hit_play.
Proof.
  apply (game_over_is_final example_bbox _ example_after_hit example_hit_play);
    reflexivity.
Defined.

(** X2: while the game is paused on its canvas, events other than the pause
    key leave the whole session alone: position, jump flag, obstacles, score
    and speed are unchanged, the game stays paused, [dino_speed] and the
    random generator are untouched, and no event raises.  (The speed timer
    only re-registers itself; the cheat key may still set [invincible].) *)
Theorem pause_freezes_session :
  forall (bbox : item -> box) (events : list event) (self : DinoGame)
         (p : Session),
    paused self = true ->
    session self = Some p ->
    canvas_alive p = true ->
    no_pause_key events = true ->
    exists self',
      run bbox events self = Some self' /\ session self' = Some p /\
      paused self' = true /\
      game_running self' = game_running self /\
      leaderboard self' = leaderboard self /\
      dino_speed self' = dino_speed self /\
      rng self' = rng self.
Proof.
  intros bbox events.
  induction events as [|e events IH]; intros self p Hp Ep Ha Hn.
  - exists self. repeat split; auto.
  - cbn [no_pause_key forallb] in Hn. apply andb_true_iff in Hn.
    destruct Hn as [He Hn].
    assert (Hne : e <> PauseKey) by (intros ->; discriminate).
    destruct (dispatch_while_paused bbox e self p Hp Ep Hne)
      as (self1 & E & Ep1 & Hp1 & R1 & L1 & _ & D1 & G1).
    destruct (IH self1 p Hp1 Ep1 Ha Hn)
      as (self' & Er & Ep' & Hp' & R' & L' & D' & G').
    exists self'. cbn [run]. rewrite E. cbn [bind].
    repeat split; congruence.
Qed.

(** At a paused session with a rock under the dino. *)
Lemma pause_freezes_session_witness :
  exists self',
    run example_bbox
        [Timer cb_update_game; JumpKey; Timer cb_increment_score;
         Timer cb_increase_speed; BossKey; Key "c"]
        (set_paused true (example_session false [80])) = Some self' /\
    session self' = Some (example_play [80]) /\
    paused self' = true /\
    game_running self' =
      game_running (set_paused true (example_session false [80])) /\
    leaderboard self' =
      leaderboard (set_paused true (example_session false [80])) /\
    dino_speed self' =
      dino_speed (set_paused true (example_session false [80])) /\
    rng self' = rng (set_paused true (example_session false [80])).
Proof.
  apply (pause_freezes_session example_bbox _
           (set_paused true (example_session false [80]))
           (example_play [80])); reflexivity.
Defined.

(** ** The score and the pause key *)

Section ScoreAndPause.

Variable bbox : item -> box.

Lemma update_game_timers (self self' : DinoGame) :
  update_game bbox self = Some self' ->
  timers self' =
    (timers self ++
     if game_running self && negb (paused self)
     then [(30%Z, cb_update_game)] else [])%list.
Proof.
  intros H.
  destruct (game_running self) eqn:Hr; cycle 1.
  { rewrite update_game_skipped in H by auto. apply Some_eq in H. subst.
    simpl. rewrite app_nil_r. reflexivity. }
  destruct (paused self) eqn:Hp.
  { rewrite update_game_skipped in H by auto. apply Some_eq in H. subst.
    simpl. rewrite app_nil_r. reflexivity. }
  apply update_game_running in H; auto.
  destruct H as (self1 & p1 & obs & self2 & E1 & Ep & Em & ->).
  apply move_dino_frame in E1. destruct E1 as (_ & _ & _ & F4 & _).
  apply move_obstacles_frame in Em.
  destruct Em as (_ & _ & _ & _ & G5 & _).
  unfold after, with_session. simpl. congruence.
Qed.

Lemma pause_score (self self' : DinoGame) (p : Session) :
  pause bbox self = Some self' -> session self = Some p ->
  exists p',
    session self' = Some p' /\ (score p <= score p' <= score p + 1)%Z.
Proof.
  unfold pause. intros H Ep.
  destruct (negb (game_running self)).
  { apply Some_eq in H. subst. exists p. split; [auto | lia]. }
  destruct (paused (set_paused (negb (paused self)) self)) eqn:Hp.
  { apply Some_eq in H. subst. exists p. split; [auto | lia]. }
  inv_bind H as self1 E1.
  destruct (update_game_effect bbox _ _ p E1 Ep) as (p1 & Ep1 & S1 & _).
  rewrite (increment_score_effect _ _ p1 H Ep1).
  destruct (game_running self1 && negb (paused self1)).
  - eexists. split; [reflexivity|]. simpl. lia.
  - exists p1. split; [auto | lia].
Qed.

Lemma dispatch_score (e : event) (self self' : DinoGame) (p : Session) :
  dispatch bbox e self = Some self' -> session self = Some p ->
  exists p',
    session self' = Some p' /\ (score p <= score p' <= score p + 1)%Z.
Proof.
  intros H Ep. destruct e as [[]| | | |char]; cbn [dispatch call] in H.
  - apply increase_speed_session in H.
    destruct H as (q & q' & Eq & Eq' & _ & _ & _ & _ & _ & Hs).
    assert (q = p) by congruence. subst q.
    exists q'. split; [auto | lia].
  - destruct (update_game_effect bbox _ _ p H Ep) as (p1 & Ep1 & S1 & _).
    exists p1. split; [auto | lia].
  - rewrite (increment_score_effect _ _ p H Ep).
    destruct (game_running self && negb (paused self)).
    + eexists. split; [reflexivity|]. simpl. lia.
    + exists p. split; [auto | lia].
  - apply Some_eq in H. subst. exists p. split; [auto | lia].
  - unfold jump in H. rewrite Ep in H. cbn [bind] in H.
    destruct (negb (dino_jump p) && negb (paused self));
      apply Some_eq in H; subst.
    + unfold with_session. rewrite Ep. eexists.
      split; [reflexivity|]. simpl. lia.
    + exists p. split; [auto | lia].
  - eapply pause_score; eauto.
  - apply Some_eq in H. subst. exists p.
    split; [|lia]. unfold boss_key.
    destruct (negb (game_running self)); [auto|].
    destruct (negb (paused self)); auto.
  - apply Some_eq in H. subst. exists p.
    split; [|lia]. unfold handle_cheat_code, activate_invincibility.
    destruct ((String.eqb char "c" || String.eqb char "C")
              && game_running self); [|auto].
    destruct (negb (invincible self)); auto.
Qed.

Lemma run_scores (events : list event) :
  forall (self self' : DinoGame) (p : Session),
    run bbox events self = Some self' ->
    session self = Some p ->
    exists p',
      session self' = Some p' /\
      (score p <= score p' <= score p + Z.of_nat (List.length events))%Z.
Proof.
  induction events as [|e events IH]; intros self self' p H Ep.
  - apply Some_eq in H. subst. exists p. split; [auto | simpl; lia].
  - cbn [run] in H. inv_bind H as self1 E1.
    destruct (dispatch_score e _ _ p E1 Ep) as (p1 & Ep1 & S1).
    destruct (IH _ _ p1 H Ep1) as (p' & Ep' & S').
    exists p'. split; [auto|]. cbn [List.length]. lia.
Qed.

End ScoreAndPause.

(** X3: the score never goes down and no event adds more than one to it:
    after any sequence of timers and key presses that a steady session on
    its canvas goes through, none of which raises, the score lies between
    its old value and its old value plus the number of events. *)
Theorem score_never_decreases :
  forall (bbox : item -> box) (events : list event) (self : DinoGame)
         (p : Session),
    session self = Some p ->
    steady self = true ->
    canvas_alive p = true ->
    exists self' p',
      run bbox events self = Some self' /\
      session self' = Some p' /\
      (score p <= score p' <= score p + Z.of_nat (List.length events))%Z.
Proof.
  intros bbox events self p Ep Hs Ha.
  destruct (run_total bbox events self Hs) as (self' & Er).
  destruct (run_scores bbox events self self' p Er Ep) as (p' & Ep' & S).
  exists self', p'. auto.
Qed.

(** At a running session, over a score tick, a resume and a step. *)
Lemma score_never_decreases_witness :
  exists self' p',
    run example_bbox
        [Timer cb_increment_score; PauseKey; PauseKey; Timer cb_update_game]
        example_far = Some self' /\
    session self' = Some p' /\
    (score example_far_play <= score p'
     <= score example_far_play
        + Z.of_nat (List.length
                      [Timer cb_increment_score; PauseKey; PauseKey;
                       Timer cb_update_game]))%Z.
Proof.
  apply (score_never_decreases example_bbox _ example_far example_far_play);
    vm_compute; reflexivity.
Defined.

(** X4: the pause key on a paused, running game on its canvas resumes it by
    taking one step and one score increment there and then: the game is
    unpaused, an [update_game] timer is registered on top of the timers
    already there, and unless that very step ended the game the score is one
    higher and an [increment_score] timer is registered too. *)
Theorem resume_steps_at_once :
  forall (bbox : item -> box) (self self' : DinoGame) (p : Session),
    game_running self = true ->
    paused self = true ->
    session self = Some p ->
    canvas_alive p = true ->
    pause bbox self = Some self' ->
    exists p',
      session self' = Some p' /\
      paused self' = false /\
      score p' = (score p + if game_running self' then 1 else 0)%Z /\
      timers self' =
        (timers self ++ (30%Z, cb_update_game)
         :: if game_running self' then [(100%Z, cb_increment_score)] else [])%list.
Proof.
  intros bbox self self' p Hr Hp Ep Ha H.
  unfold pause in H. rewrite Hr, Hp in H. cbn [negb] in H.
  change (paused (set_paused false self)) with false in H.
  inv_bind H as self1 E1.
  pose proof (update_game_timers bbox _ _ E1) as T1.
  destruct (update_game_effect bbox _ _ p E1 Ep)
    as (p1 & Ep1 & S1 & _ & _ & _ & P1 & _).
  change (paused (set_paused false self)) with false in P1.
  change (game_running (set_paused false self)) with (game_running self) in T1.
  change (paused (set_paused false self)) with false in T1.
  change (timers (set_paused false self)) with (timers self) in T1.
  rewrite Hr in T1. cbn [negb andb] in T1.
  rewrite (increment_score_effect _ _ p1 H Ep1). rewrite P1. cbn [negb].
  rewrite andb_true_r.
  destruct (game_running self1) eqn:Hr1.
  - eexists. split; [reflexivity|]. simpl. rewrite Hr1, T1, <- app_assoc.
    repeat split; auto. lia.
  - exists p1. rewrite Hr1, T1. repeat split; auto. lia.
Qed.

(** At a paused session whose rock is far away. *)
Lemma resume_steps_at_once_witness :
  exists p',
    session example_resumed = Some p' /\
    paused example_resumed = false /\
    score p' =
      (score example_far_play
       + if game_running example_resumed then 1 else 0)%Z /\
    timers example_resumed =
      (timers (set_paused true example_far)
       ++ (30%Z, cb_update_game)
       :: if game_running example_resumed
          then [(100%Z, cb_increment_score)] else [])%list.
Proof.
  apply (resume_steps_at_once example_bbox
           (set_paused true example_far) example_resumed
           example_far_play); vm_compute; reflexivity.
Defined.
